(** * The sharded document store of dlio_benchmark: [src/storage/wrapper_db.py]

    A shallow embedding of the [DbWrapper] class (the storage client that
    the data generator and the reader call into) together with the lines of
    [DBReader.read] that fetch the written keys.

    [DbWrapper] drives a native library ([multi_lib]) through [ctypes].
    The library itself is not part of the Python sources; what it does is
    modelled from the specification (sections 4.1, 4.2 and 6 of spec.md)
    and every such definition says so. The hash function of the ring and
    the contents found on disk when the nodes are opened are left abstract
    (class [NodeEngine]). *)

From Stdlib Require Import String Ascii ZArith List Lia.
From Stdlib.Strings Require Import Byte.
From stdpp Require Import gmap strings list pretty.

Set Warnings "-abstract-large-number".

(** ** Python values *)

(** Python [bytes]: a sequence of octets, NUL included. *)
Abbreviation bytes := (list byte).

#[global] Instance byte_eq_dec : EqDecision byte := Byte.byte_eq_dec.

#[global] Program Instance byte_countable : Countable byte :=
  {| encode b := encode (Byte.to_N b);
     decode p := n ← decode p; Byte.of_N n |}.
Next Obligation.
  intros b. cbn. rewrite decode_encode. cbn. apply Byte.of_to_N.
Qed.

(** Python [str], restricted to the code points below 256 that a Rocq
    [string] can hold. [len] counts code points. *)
Abbreviation str := string.

Definition len (s : str) : nat := String.length s.

(** [s.encode('utf-8')] on such a string: one octet below 128, two above. *)
Definition byte_of_N (n : N) : byte :=
  match Byte.of_N n with Some b => b | None => x00 end.

Definition encode_char (c : ascii) : bytes :=
  let n := N_of_ascii c in
  if (n <? 128)%N then [byte_of_N n]
  else [byte_of_N (192 + n / 64)%N; byte_of_N (128 + n mod 64)%N].

Fixpoint encode_utf8 (s : str) : bytes :=
  match s with
  | EmptyString => []
  | String c s' => encode_char c ++ encode_utf8 s'
  end.

(** [s[a:b]] for [0 <= a <= b]; out-of-range bounds are clipped. *)
Definition slice (s : str) (a b : nat) : str := substring a (b - a) s.

(** The arguments [uri] receives: the generator passes an [int], the reader
    a [str]. [fmt v] is the f-string [f"{v}"]. *)
Inductive pyval :=
| PyInt (z : Z)
| PyStr (s : str).

Definition fmt (v : pyval) : str :=
  match v with
  | PyInt z => pretty z
  | PyStr s => s
  end.

(** The exceptions the wrapper can raise: the explicit [Exception] of
    [__init__], and those of [ctypes] itself. *)
Inductive exn :=
| Exception (msg : str)
| ValueError (msg : str)
| TypeError (msg : str).

Inductive outcome (A : Type) :=
| Return (a : A)
| Raise (e : exn).
Arguments Return {A} a.
Arguments Raise {A} e.

(** ** The ctypes structures *)

(** A [c_char_p] field is a pointer: [None] is NULL, [Some m] points to the
    octets [m] that lie in memory from the pointer on. *)
Definition c_char_p_t := option bytes.

(** [ctypes.c_char_p(b)]: a pointer to the buffer of the bytes object [b],
    which CPython terminates with a NUL. *)
Definition c_char_p (b : bytes) : c_char_p_t := Some (b ++ [x00]).

Fixpoint until_nul (m : bytes) : bytes :=
  match m with
  | [] => []
  | b :: m' => if decide (b = x00) then [] else b :: until_nul m'
  end.

(** Reading a [c_char_p] field from Python: [None] for NULL, otherwise the
    octets up to (not including) the first NUL. *)
Definition c_char_p_value (p : c_char_p_t) : option bytes :=
  until_nul <$> p.

Module SizedBuf.
Record t := mk { buf : c_char_p_t; size : nat }.
End SizedBuf.

Module Doc.
Record t := mk { id : SizedBuf.t; data : SizedBuf.t }.
End Doc.

(** What native code sees behind a [SizedBuf]: [size] octets from [buf].
    The model holds the octets of the buffer and its terminator, not the
    memory that follows them: it is right for a [size] within the buffer,
    and a [size] beyond it, which in C reads on into foreign memory, is cut
    at the end of the buffer. The documents [db_write] and [db_checkpoint]
    build never exceed their buffers ([len] of a string is at most the
    length of its encoding). *)
Definition sized_bytes (sb : SizedBuf.t) : bytes :=
  match SizedBuf.buf sb with
  | Some m => take (SizedBuf.size sb) m
  | None => []
  end.

(** ** The node engine behind [multi_lib] *)

(** The error taxonomy of the specification (section 7). *)
Inductive StorageError :=
| InvalidTopology
| EmptyRing
| AlreadyInitialized
| Closed
| KeyNotFound
| CorruptDocument
| NodeIOError
| PartialTopologyFailure.

(** The status code a native call returns. *)
Inductive status :=
| SUCCESS
| ERROR (e : StorageError).

#[global] Instance StorageError_eq_dec : EqDecision StorageError.
Proof. solve_decision. Defined.
#[global] Instance status_eq_dec : EqDecision status.
Proof. solve_decision. Defined.

(** What the sources do not determine: the hash of a virtual node, the hash
    of a key, and the documents a node finds under its path when opened. *)
Class NodeEngine := {
  hash_vnode : nat -> nat -> N;
  hash_key : bytes -> N;
  persisted : str -> nat -> gmap bytes bytes
}.

(** Modelled from the spec: the consistent-hashing ring of [multi_lib]
    ([create_consistent_hashing], [add_node] and the routing used by the
    save/open calls are native code). Section 3: an ordered set of
    (ring position, node index) entries, one per virtual replica, sorted. *)
Record HashRing := mkRing {
  virtual_replicas : nat;
  positions : list (N * nat)
}.

Definition create_consistent_hashing (v : nat) : HashRing :=
  {| virtual_replicas := v; positions := [] |}.

Fixpoint ring_insert (p : N * nat) (l : list (N * nat)) : list (N * nat) :=
  match l with
  | [] => [p]
  | q :: l' => if (p.1 <=? q.1)%N then p :: l else q :: ring_insert p l'
  end.

Definition add_node `{NodeEngine} (ring : HashRing) (i : nat) : HashRing :=
  {| virtual_replicas := virtual_replicas ring;
     positions :=
       foldr ring_insert (positions ring)
         ((fun r => (hash_vnode i r, i)) <$> seq 0 (virtual_replicas ring)) |}.

(** Modelled from the spec: [route] of section 4.1. The first position at
    or after the hash of the key, wrapping around to the first position of
    the ring; [EmptyRing] when the ring has no position. *)
Definition route `{NodeEngine} (ring : HashRing) (key : bytes)
  : StorageError + nat :=
  match positions ring with
  | [] => inl EmptyRing
  | first :: _ =>
      match List.find (fun p => (hash_key key <=? p.1)%N) (positions ring) with
      | Some p => inr p.2
      | None => inr first.2
      end
  end.

(** [DbHandle]: [dbs] is the array of node pointers ([None] is a NULL or
    closed node, [Some m] an open node holding the documents [m]), [ch] the
    ring ([None] is NULL). *)
Module DbHandle.
Record t := mk {
  dbs : list (option (gmap bytes bytes));
  ch : option HashRing;
  node_num : nat
}.
End DbHandle.

(** The node a document id is routed to, with the documents it holds. *)
Definition target `{NodeEngine} (h : DbHandle.t) (key : bytes)
  : StorageError + (nat * gmap bytes bytes) :=
  match DbHandle.ch h with
  | None => inl EmptyRing
  | Some ring =>
      match route ring key with
      | inl e => inl e
      | inr idx =>
          match DbHandle.dbs h !! idx with
          | Some (Some store) => inr (idx, store)
          | Some None => inl Closed
          | None => inl NodeIOError
          end
      end
  end.

(** Modelled from the spec: [couchstore_open_multiple_dbs] (native). Opens
    one node store per node index under the base path (sections 4.2, 6). *)
Definition couchstore_open_multiple_dbs `{NodeEngine}
    (path : str) (h : DbHandle.t) : status * DbHandle.t :=
  (SUCCESS,
   DbHandle.mk
     ((fun i => Some (persisted path i)) <$> seq 0 (DbHandle.node_num h))
     (DbHandle.ch h) (DbHandle.node_num h)).

(** Modelled from the spec: [couchstore_close_multiple_dbs] (native).
    Closes every node store (section 4.4, close). *)
Definition couchstore_close_multiple_dbs (h : DbHandle.t)
  : status * DbHandle.t :=
  (SUCCESS,
   DbHandle.mk ((fun _ => None) <$> DbHandle.dbs h)
     (DbHandle.ch h) (DbHandle.node_num h)).

(** Modelled from the spec: [couchstore_save_document_to_nodes] (native).
    Routes the id through the ring and upserts the payload into the target
    node (put of section 6). *)
Definition couchstore_save_document_to_nodes `{NodeEngine}
    (h : DbHandle.t) (doc : Doc.t) : status * DbHandle.t :=
  let key := sized_bytes (Doc.id doc) in
  match target h key with
  | inl e => (ERROR e, h)
  | inr (idx, store) =>
      (SUCCESS,
       DbHandle.mk
         (<[idx := Some (<[key := sized_bytes (Doc.data doc)]> store)]>
            (DbHandle.dbs h))
         (DbHandle.ch h) (DbHandle.node_num h))
  end.

(** Modelled from the spec: [couchstore_commit_nodes] (native). A
    durability barrier over all nodes (commit of sections 4.4 and 6); it
    changes nothing a later get can see. *)
Definition couchstore_commit_nodes (h : DbHandle.t) : status :=
  if decide (None ∈ DbHandle.dbs h) then ERROR Closed else SUCCESS.

(** Modelled from the spec: [couchstore_open_document_from_nodes] (native).
    Routes the id and gets the document from the target node (get of
    section 6). On success the node allocates a document whose buffers hold
    the id and the payload with their recorded lengths; on failure the
    caller's document pointer is left as it was (NULL). *)
Definition couchstore_open_document_from_nodes `{NodeEngine}
    (h : DbHandle.t) (id_buf : c_char_p_t) (id_size : nat)
  : status * option Doc.t :=
  let key := sized_bytes (SizedBuf.mk id_buf id_size) in
  match target h key with
  | inl e => (ERROR e, None)
  | inr (_, store) =>
      match store !! key with
      | None => (ERROR KeyNotFound, None)
      | Some payload =>
          (SUCCESS,
           Some (Doc.mk (SizedBuf.mk (c_char_p key) (length key))
                        (SizedBuf.mk (c_char_p payload) (length payload))))
      end
  end.

(** Modelled from the spec: [couchstore_free_document] (native). Releases
    the node-allocated document; Python keeps its pointer. What a later
    read through that pointer finds is decided by neither the sources nor
    the specification: the model lets it find what the document held, the
    case most favourable to the code. The journal records the release
    ([EvFreeDoc]), so that an access after it can be told from one before. *)
Definition couchstore_free_document (doc : option Doc.t) : status := SUCCESS.

(** ** Effects *)

Inductive doc_field := id_buf | id_size | data_buf | data_size.

(** The journal of a call: what it did to the nodes, to [dataset_key] and
    to the document [rq_doc] points to, in program order. *)
Inductive event :=
| EvSave (st : status) (key value : bytes)
| EvCommit (st : status)
| EvAppendKey (key : str)
| EvOpenDoc (st : status) (key : bytes)
| EvGetField (f : doc_field)
| EvSetField (f : doc_field)
| EvFreeDoc.

#[global] Instance doc_field_eq_dec : EqDecision doc_field.
Proof. solve_decision. Defined.
#[global] Instance event_eq_dec : EqDecision event.
Proof. solve_decision. Defined.

(** A Python computation over the mutable state [S]: its outcome, the state
    it leaves (also when it raises), and its journal. *)
Definition Py (S A : Type) : Type := S -> outcome A * S * list event.

Definition ret {S A} (a : A) : Py S A := fun s => (Return a, s, []).

Definition raise {S A} (e : exn) : Py S A := fun s => (Raise e, s, []).

Definition bind {S A B} (m : Py S A) (k : A -> Py S B) : Py S B :=
  fun s =>
    match m s with
    | (Return a, s', j) =>
        match k a s' with
        | (r, s'', j') => (r, s'', j ++ j')
        end
    | (Raise e, s', j) => (Raise e, s', j)
    end.

Definition emit {S} (e : event) : Py S unit := fun s => (Return tt, s, [e]).

Definition get_state {S} : Py S S := fun s => (Return s, s, []).

Definition put_state {S} (s : S) : Py S unit := fun _ => (Return tt, s, []).

Declare Scope py_scope.
Delimit Scope py_scope with py.
Notation "x <- m ;; k" := (bind m (fun x => k))
  (at level 100, m at next level, right associativity) : py_scope.
Notation "m ;; k" := (bind m (fun _ => k))
  (at level 100, right associativity) : py_scope.
Open Scope py_scope.

(** [for x in xs: body(x)]. *)
Fixpoint for_each {S A} (xs : list A) (body : A -> Py S unit) : Py S unit :=
  match xs with
  | [] => ret tt
  | x :: xs' => body x ;; for_each xs' body
  end.

Definition outcome_of {S A} (r : outcome A * S * list event) : outcome A := r.1.1.
Definition state_of {S A} (r : outcome A * S * list event) : S := r.1.2.
Definition journal_of {S A} (r : outcome A * S * list event) : list event := r.2.

(** [ctypes.byref(x)]: [x] must be a ctypes instance. *)
Definition byref {S} (h : option DbHandle.t) : Py S DbHandle.t :=
  match h with
  | Some h => ret h
  | None =>
      raise (TypeError
        "byref() argument must be a ctypes instance, not 'NoneType'")
  end.

(** [p.contents] on a [POINTER(Doc)]. *)
Definition contents {S} (p : option Doc.t) : Py S Doc.t :=
  match p with
  | Some d => ret d
  | None => raise (ValueError "NULL pointer access")
  end.

(** Passing the Python value of a [c_char_p] field as a foreign-call
    argument: a bytes object is passed as a pointer to its buffer. The
    object is a new one, holding the octets of the field up to the first
    NUL: for a key without U+0000 that is the whole key, and the [size]
    that goes with it lies within the buffer. For a key holding U+0000 the
    buffer is shorter than the key, and the properties that rest on the id
    of a lookup keep to keys without it. *)
Definition as_char_p (v : option bytes) : c_char_p_t := b ← v; c_char_p b.

(** ** [class DbWrapper] *)

Module DbWrapper.

Record t := mk {
  handle : option DbHandle.t;
  dataset_key : list str
}.

Definition set_handle (h : DbHandle.t) : Py t unit :=
  fun self => (Return tt, mk (Some h) (dataset_key self), []).

(** [db_init(self, num_nodes, db_name, file_path)]. [num_nodes] is kept in
    the [c_int] field [node_num] of the handle: the model is of the calls
    with [0 <= num_nodes < 2^31], for which the field holds the number
    itself (the constructor passes 4). *)
Definition db_init `{NodeEngine}
    (num_nodes : nat) (db_name file_path : str) : Py t unit :=
  let filename := file_path in
  let handle := DbHandle.mk [] None 0 in
  let handle := DbHandle.mk (DbHandle.dbs handle) (DbHandle.ch handle) num_nodes in
  let handle :=
    DbHandle.mk (replicate (DbHandle.node_num handle) None)
      (DbHandle.ch handle) (DbHandle.node_num handle) in
  let consistent_hash := create_consistent_hashing 32 in
  let consistent_hash :=
    foldl add_node consistent_hash (seq 0 (DbHandle.node_num handle)) in
  let handle :=
    DbHandle.mk (DbHandle.dbs handle) (Some consistent_hash)
      (DbHandle.node_num handle) in
  let '(_, handle) := couchstore_open_multiple_dbs filename handle in
  set_handle handle.

(** [db_close(self)] *)
Definition db_close : Py t unit :=
  self <- get_state ;;
  h <- byref (handle self) ;;
  let '(_, h) := couchstore_close_multiple_dbs h in
  set_handle h.

(** The foreign call [multi_lib.couchstore_save_document_to_nodes(
    ctypes.byref(self.handle), ctypes.byref(doc), None, 0)]; the status it
    returns is dropped by both callers. *)
Definition save_document `{NodeEngine} (doc : Doc.t) : Py t unit :=
  self <- get_state ;;
  h <- byref (handle self) ;;
  let '(st, h) := couchstore_save_document_to_nodes h doc in
  set_handle h ;;
  emit (EvSave st (sized_bytes (Doc.id doc)) (sized_bytes (Doc.data doc))).

Definition bs : nat := 8192.

(** The document built by one round of the loop of [db_checkpoint]. *)
Definition chunk_doc (data : str) (i : nat) : Doc.t :=
  let key := ("c" +:+ pretty i)%string in
  let value := slice data (i * bs) ((i + 1) * bs) in
  Doc.mk (SizedBuf.mk (c_char_p (encode_utf8 key)) (len key))
         (SizedBuf.mk (c_char_p (encode_utf8 value)) (len value)).

(** [db_checkpoint(self, uri, data: str)] *)
Definition db_checkpoint `{NodeEngine} (uri : pyval) (data : str)
  : Py t unit :=
  let size := len data / bs + 1 in
  for_each (seq 0 (size - 1)) (fun i => save_document (chunk_doc data i)).

(** [self.dataset_key.append(key)] *)
Definition dataset_key_append (key : str) : Py t unit :=
  fun self =>
    (Return tt, mk (handle self) (dataset_key self ++ [key]),
     [EvAppendKey key]).

(** [multi_lib.couchstore_commit_nodes(ctypes.byref(self.handle))] *)
Definition commit_nodes : Py t unit :=
  self <- get_state ;;
  h <- byref (handle self) ;;
  emit (EvCommit (couchstore_commit_nodes h)).

(** [db_write(self, uri, data)] *)
Definition db_write `{NodeEngine} (uri : pyval) (data : bytes) : Py t unit :=
  let key := fmt uri in
  let docs :=
    Doc.mk (SizedBuf.mk (c_char_p (encode_utf8 key)) (len key))
           (SizedBuf.mk (c_char_p data) (length data)) in
  save_document docs ;;
  dataset_key_append key ;;
  commit_nodes.

(** [db_read(self, uri, dataset)]. The state is the list [dataset] of
    the caller; [self] is only read. *)
Definition db_read `{NodeEngine} (self : t) (uri : pyval)
  : Py (list (option bytes)) nat :=
  let rq_doc : option Doc.t := None in
  let key := fmt uri in
  let rq_id := SizedBuf.mk (c_char_p (encode_utf8 key)) (len key) in
  h <- byref (handle self) ;;
  let id_arg := as_char_p (c_char_p_value (SizedBuf.buf rq_id)) in
  let '(st, found) :=
    couchstore_open_document_from_nodes h id_arg (SizedBuf.size rq_id) in
  let rq_doc := match found with Some d => Some d | None => rq_doc end in
  emit (EvOpenDoc st (sized_bytes (SizedBuf.mk id_arg (SizedBuf.size rq_id)))) ;;
  d <- contents rq_doc ;;
  emit (EvGetField data_buf) ;;
  dataset <- get_state ;;
  put_state (dataset ++ [c_char_p_value (SizedBuf.buf (Doc.data d))]) ;;
  d <- contents rq_doc ;;
  emit (EvSetField id_buf) ;;
  let rq_doc :=
    Some (Doc.mk (SizedBuf.mk None (SizedBuf.size (Doc.id d))) (Doc.data d)) in
  let _ := couchstore_free_document rq_doc in
  emit EvFreeDoc ;;
  d <- contents rq_doc ;;
  emit (EvGetField data_size) ;;
  ret (SizedBuf.size (Doc.data d)).

(** *** The class attribute and the constructor *)

(** The objects of the class allocated so far, by address, and the class
    attribute [DbWrapper.__instance] ([None], or the address of the
    registered object). *)
Record Process := mkProcess {
  __instance : option nat;
  objects : list t
}.

(** Running a method on the object at address [self]. *)
Definition on_object {A} (self : nat) (m : Py t A) : Py Process A :=
  fun p =>
    match objects p !! self with
    | Some obj =>
        match m obj with
        | (r, obj', j) =>
            (r, mkProcess (__instance p) (<[self := obj']> (objects p)), j)
        end
    | None => (Raise (TypeError "no such object"), p, [])
    end.

(** [__init__(self)] *)
Definition __init__ `{NodeEngine} (self : nat) : Py Process unit :=
  on_object self (put_state (mk None [])) ;;
  p <- get_state ;;
  if decide (__instance p ≠ None) then
    raise (Exception "This class is a singleton!")
  else
    put_state (mkProcess (Some self) (objects p)) ;;
    on_object self (db_init 4 "rocksdb" "test_simple_dir/rocks/node").

(** The call [DbWrapper()]: a new object is allocated, then initialised;
    the caller gets its address only when [__init__] returns. *)
Definition new `{NodeEngine} : Py Process nat :=
  p <- get_state ;;
  let self := length (objects p) in
  put_state (mkProcess (__instance p) (objects p ++ [mk None []])) ;;
  __init__ self ;;
  ret self.

(** [get_instance()] *)
Definition get_instance `{NodeEngine} : Py Process (option nat) :=
  p <- get_state ;;
  (if decide (__instance p = None) then (new ;; ret tt) else ret tt) ;;
  p <- get_state ;;
  ret (__instance p).

End DbWrapper.

(** ** [DBReader.read], from the fetch loop to the check of the elements *)

Module DBReader.

(** The loop [for key in self._db.dataset_key: self.db_read_total +=
    self._db.db_read(f"{key}", dataset)], from [db_read_total]. *)
Fixpoint fetch `{NodeEngine} (db : DbWrapper.t) (keys : list str)
    (db_read_total : nat) : Py (list (option bytes)) nat :=
  match keys with
  | [] => ret db_read_total
  | key :: keys' =>
      n <- DbWrapper.db_read db (PyStr key) ;;
      fetch db keys' (db_read_total + n)
  end.

(** Lines 47 and 52-59 of [read(self, epoch_number)]: [db_read_total] is
    reset, the keys of [dataset_key] are fetched in order, the [None]
    elements are dropped and the rest is checked. The result is the local
    [dataset] as line 59 leaves it, with [self.db_read_total]. Line 48,
    [super().read(epoch_number)], runs before the loop (its class is not
    part of the sources), and the TensorFlow pipeline of lines 61-71 is
    built from [dataset] afterwards; neither is part of this definition,
    which stands for these lines and not for [read] as a whole. *)
Definition fetched_dataset `{NodeEngine} (db : DbWrapper.t)
  : outcome (list bytes * nat) * list event :=
  let dataset : list (option bytes) := [] in
  match fetch db (DbWrapper.dataset_key db) 0 dataset with
  | (Raise e, _, j) => (Raise e, j)
  | (Return db_read_total, dataset, j) =>
      let dataset := omap (fun element => element) dataset in
      if decide (None ∈ (Some <$> dataset)) then
        (Raise (ValueError "Error reading from database"), j)
      else (Return (dataset, db_read_total), j)
  end.

End DBReader.

(** The handle after the puts of a sequence of documents, in order. *)
Definition save_all `{NodeEngine} (h : DbHandle.t) (docs : list Doc.t) : DbHandle.t :=
  foldl (fun h doc => (couchstore_save_document_to_nodes h doc).2) h docs.

(** ** The script under [if __name__ == "__main__"] of [wrapper_db.py] *)

(** What a [print] call is given, argument by argument (for the f-string of
    the last loop, part by part). How [print] renders them is left out. *)
Inductive printed :=
| PStr (s : str)
| PInt (n : nat)
| PBytes (b : option bytes).

Module Main.

(** [docs[i]] as the first loop fills it. *)
Definition doc (i : nat) : Doc.t :=
  let key := ("key" +:+ pretty i)%string in
  let value := ("value" +:+ pretty i)%string in
  Doc.mk (SizedBuf.mk (c_char_p (encode_utf8 key)) (len key))
         (SizedBuf.mk (c_char_p (encode_utf8 value)) (len value)).

(** The last loop, from the index list left and the current [rq_doc]: the
    outcome and the lines printed. A lookup that fails leaves [rq_doc] as
    the round before left it. *)
Fixpoint read_back `{NodeEngine} (handle : DbHandle.t) (indices : list nat)
    (rq_doc : option Doc.t) : outcome unit * list (list printed) :=
  match indices with
  | [] => (Return tt, [])
  | i :: indices' =>
      let key := ("key" +:+ pretty i)%string in
      let rq_id := SizedBuf.mk (c_char_p (encode_utf8 key)) (len key) in
      let '(_, found) :=
        couchstore_open_document_from_nodes handle
          (as_char_p (c_char_p_value (SizedBuf.buf rq_id))) (SizedBuf.size rq_id) in
      let rq_doc := match found with Some d => Some d | None => rq_doc end in
      match rq_doc with
      | None => (Raise (ValueError "NULL pointer access"), [])
      | Some d =>
          let line :=
            [PBytes (c_char_p_value (SizedBuf.buf rq_id)); PStr ": ";
             PBytes (c_char_p_value (SizedBuf.buf (Doc.data d)))] in
          let '(o, lines) := read_back handle indices' rq_doc in
          (o, line :: lines)
      end
  end.

(** Lines 134-155: the handle of two nodes, opened, and what was printed
    on the way. *)
Definition opened `{NodeEngine} : DbHandle.t * list (list printed) :=
  let dbname := "RocksDB" in
  let filename := "test_simple_dir/rocks/node" in
  let out := [[PStr "DB: "; PStr dbname]; [PStr "Filename: "; PStr filename]] in
  let handle := DbHandle.mk [] None 0 in
  let handle := DbHandle.mk (DbHandle.dbs handle) (DbHandle.ch handle) 2 in
  let handle :=
    DbHandle.mk (replicate (DbHandle.node_num handle) None)
      (DbHandle.ch handle) (DbHandle.node_num handle) in
  let consistent_hash := create_consistent_hashing 32 in
  let out :=
    out ++ ((fun i => [PStr "add node: "; PInt i]) <$> seq 0 (DbHandle.node_num handle)) in
  let consistent_hash :=
    foldl add_node consistent_hash (seq 0 (DbHandle.node_num handle)) in
  let handle :=
    DbHandle.mk (DbHandle.dbs handle) (Some consistent_hash)
      (DbHandle.node_num handle) in
  let '(_, handle) := couchstore_open_multiple_dbs filename handle in
  (handle, out ++ [[PStr "open multiple dbs done"]]).

(** Lines 157-189, from the opened handle and the lines printed so far. *)
Definition batch `{NodeEngine} (handle : DbHandle.t) (out : list (list printed))
  : outcome unit * list (list printed) :=
  let batch_size := 32 in
  let docs := doc <$> seq 0 batch_size in
  let out :=
    out ++
    ((fun d => [PStr "key: "; PBytes (c_char_p_value (SizedBuf.buf (Doc.id d)));
                PStr "value: "; PBytes (c_char_p_value (SizedBuf.buf (Doc.data d)))])
       <$> docs) in
  let handle := save_all handle docs in
  let out :=
    out ++ ((fun _ => [PStr "save multiple documents done"]) <$> seq 0 batch_size) in
  let _ := couchstore_commit_nodes handle in
  let out := out ++ [[PStr "commit multiple dbs done"]] in
  let rq_doc : option Doc.t := None in
  match read_back handle (seq 0 batch_size) rq_doc with
  | (Raise e, lines) => (Raise e, out ++ lines)
  | (Return _, lines) =>
      let '(_, handle) := couchstore_close_multiple_dbs handle in
      (Return tt, out ++ lines ++ [[PStr "close multiple dbs done"]])
  end.

Definition main `{NodeEngine} : outcome unit * list (list printed) :=
  let '(handle, out) := opened in batch handle out.

End Main.

(** ** [utils/utility.py]: [str2bool] and [PerfTrace] *)

(** [MPI.COMM_WORLD.rank] and [MPI.COMM_WORLD.size], as [get_rank()] and
    [get_size()] return them. *)
Class Mpi := {
  get_rank : nat;
  get_size : nat
}.

Module Utility.

(** [c.lower()] for a code point below 256: the letters A-Z and the
    Latin-1 capitals U+00C0-U+00DE (U+00D7, the multiplication sign, is no
    letter) move up by 32, every other code point stays. *)
Definition lower_char (c : ascii) : ascii :=
  let n := N_of_ascii c in
  if ((65 <=? n) && (n <=? 90) ||
      (192 <=? n) && (n <=? 222) && negb (n =? 215))%N
  then ascii_of_N (n + 32) else c.

Fixpoint lower (s : str) : str :=
  match s with
  | EmptyString => EmptyString
  | String c s' => String (lower_char c) (lower s')
  end.

(** The values [str2bool] is given: a [bool] or a [str]. *)
Inductive arg :=
| ABool (b : bool)
| AStr (s : str).

(** What [str2bool] can raise. The module never imports [argparse], so
    evaluating [argparse.ArgumentTypeError] raises [NameError] before any
    [ArgumentTypeError] can be built. *)
Inductive error :=
| NameError (name : str)
| ArgumentTypeError (msg : str).

(** [str2bool(v)] *)
Definition str2bool (v : arg) : error + bool :=
  match v with
  | ABool b => inr b
  | AStr s =>
      if bool_decide (lower s ∈ ["yes"; "true"; "t"; "y"; "1"]) then inr true
      else if bool_decide (lower s ∈ ["no"; "false"; "f"; "n"; "0"]) then inr false
      else inl (NameError "argparse")
  end.

End Utility.

Module PerfTrace.

(** An object of the class: [logger] is [false] for [None] and [true] for
    the logger ["perftrace"] of the [logging] module. *)
Record t := mk {
  logfile : str;
  log_file : option str;
  logger : bool
}.

(** A [logging.FileHandler]: the path it was opened on, and the lines
    written through it since. *)
Record handler := mkHandler {
  path : str;
  written : list str
}.

(** The objects of the class by address, the class attribute
    [PerfTrace.__instance], and the handlers attached to the logger
    ["perftrace"], which is one per process. *)
Record World := mkWorld {
  __instance : option nat;
  objects : list t;
  handlers : list handler
}.

(** [self.logger.debug(msg)]: the logger has level DEBUG and does not
    propagate, so each of its handlers writes the message as one line (the
    formatter is ["%(message)s"]); without a handler the message is
    dropped. *)
Definition debug (msg : str) : Py World unit :=
  fun w =>
    (Return tt,
     mkWorld (__instance w) (objects w)
       ((fun hd => mkHandler (path hd) (written hd ++ [msg])) <$> handlers w),
     []).

Definition set_object (self : nat) (obj : t) : Py World unit :=
  fun w => (Return tt, mkWorld (__instance w) (<[self := obj]> (objects w)) (handlers w), []).

Definition get_object (self : nat) : Py World t :=
  fun w =>
    match objects w !! self with
    | Some obj => (Return obj, w, [])
    | None => (Raise (TypeError "no such object"), w, [])
    end.

(** [__init__(self)] *)
Definition __init__ `{Mpi} (self : nat) : Py World unit :=
  set_object self
    (mk ("./.trace-" +:+ pretty get_rank +:+ "-of-" +:+ pretty get_size +:+ ".pfw")
        None false) ;;
  fun w => (Return tt, mkWorld (Some self) (objects w) (handlers w), []).

(** The call [PerfTrace()]. *)
Definition new `{Mpi} : Py World nat :=
  w <- get_state ;;
  let self := length (objects w) in
  put_state (mkWorld (__instance w) (objects w ++ [mk "" None false]) (handlers w)) ;;
  __init__ self ;;
  ret self.

(** [get_instance(cls)] *)
Definition get_instance `{Mpi} : Py World (option nat) :=
  w <- get_state ;;
  (if decide (__instance w = None) then (new ;; ret tt) else ret tt) ;;
  w <- get_state ;;
  ret (__instance w).

(** [logging.FileHandler(filename)] followed by [addHandler]: the file name
    must be path-like; the handler starts with nothing written. *)
Definition add_file_handler (filename : option str) : Py World unit :=
  match filename with
  | None =>
      raise (TypeError "expected str, bytes or os.PathLike object, not NoneType")
  | Some name =>
      fun w =>
        (Return tt,
         mkWorld (__instance w) (objects w) (handlers w ++ [mkHandler name []]),
         [])
  end.

(** [flush_log(self, s)] *)
Definition flush_log (self : nat) (s : str) : Py World unit :=
  obj <- get_object self ;;
  (if logger obj then ret tt
   else
     set_object self (mk (logfile obj) (log_file obj) true) ;;
     add_file_handler (log_file obj) ;;
     debug "[") ;;
  if decide (s <> "") then debug s else ret tt.

(** [flush_log] called on each string of a list in turn. *)
Definition flush_all (self : nat) (ss : list str) : Py World unit :=
  for_each ss (flush_log self).

End PerfTrace.

(** ** Vocabulary of the properties *)

(** The error of the taxonomy an exception stands for. The only exception
    the wrapper raises on purpose is the one of [__init__]; the exceptions
    of [ctypes] stand for no storage error. *)
Definition error_of (e : exn) : option StorageError :=
  match e with
  | Exception msg =>
      if decide (msg = "This class is a singleton!") then Some AlreadyInitialized
      else None
  | _ => None
  end.

Definition fails_with {A} (err : StorageError) (o : outcome A) : Prop :=
  exists e, o = Raise e /\ error_of e = Some err.

(** The (id, payload) pairs handed to the nodes, in order. *)
Definition saved (j : list event) : list (bytes * bytes) :=
  omap (fun e => match e with EvSave _ k v => Some (k, v) | _ => None end) j.


(** Some put of the journal was rejected by the node engine. *)
Definition put_failed (j : list event) : Prop :=
  exists e k v, EvSave (ERROR e) k v ∈ j.




(** The id under which [db_write] stores the key, and the id under which
    [db_read] looks it up. The latter is the id of the lookup for keys
    without U+0000 (see [as_char_p]), where it is the former. *)
Definition write_id (key : str) : bytes :=
  sized_bytes (SizedBuf.mk (c_char_p (encode_utf8 key)) (len key)).

Definition read_id (key : str) : bytes :=
  sized_bytes
    (SizedBuf.mk (as_char_p (c_char_p_value (c_char_p (encode_utf8 key))))
       (len key)).

Definition open_node (h : DbHandle.t) (idx : nat) : bool :=
  match DbHandle.dbs h !! idx with
  | Some (Some _) => true
  | _ => false
  end.

(** A client whose ring has positions, each owned by an open node. *)
Definition ready (self : DbWrapper.t) : bool :=
  match DbWrapper.handle self with
  | Some h =>
      match DbHandle.ch h with
      | Some ring =>
          match positions ring with
          | [] => false
          | _ => forallb (fun p => open_node h p.2) (positions ring)
          end
      | None => false
      end
  | None => false
  end.

(** No open node of the client holds a document under [key]. *)
Definition absent (self : DbWrapper.t) (key : bytes) : Prop :=
  forall h i store,
    DbWrapper.handle self = Some h ->
    DbHandle.dbs h !! i = Some (Some store) ->
    store !! key = None.

(** An object whose [__init__] ran to the end. *)
Definition initialised (obj : DbWrapper.t) : Prop :=
  is_Some (DbWrapper.handle obj).

(** The initialised objects of the class are exactly the registered one:
    there is at most one, and it is [DbWrapper.__instance]. *)
Definition singleton (p : DbWrapper.Process) : Prop :=
  forall a,
    (exists obj, DbWrapper.objects p !! a = Some obj /\ initialised obj) <->
    DbWrapper.__instance p = Some a.

(** The object [__init__] leaves behind when it runs to the end. *)
Definition default_client `{NodeEngine} : DbWrapper.t :=
  state_of
    (DbWrapper.db_init 4 "rocksdb" "test_simple_dir/rocks/node"
       (DbWrapper.mk None [])).

(** The ceiling of [n / d]. *)
Definition ceil_div (n d : nat) : nat := (n + d - 1) / d.

(** ** A concrete engine and client, to run the model on *)

Definition sample_engine : NodeEngine :=
  {| hash_vnode i r := N.of_nat (4 * r + i);
     hash_key b := N.of_nat (length b);
     persisted _ _ := ∅ |}.

Definition fresh_process : DbWrapper.Process := DbWrapper.mkProcess None [].

Definition sample_client : DbWrapper.t :=
  state_of
    (@DbWrapper.db_init sample_engine 4 "rocksdb" "test_simple_dir/rocks/node"
       (DbWrapper.mk None [])).

Definition closed_client : DbWrapper.t :=
  state_of (DbWrapper.db_close sample_client).

(** A checkpoint payload of exactly [bs] characters. *)
Definition one_chunk : str := string_of_list_ascii (replicate DbWrapper.bs "a"%char).

(** ** Vocabulary of the further properties *)

(** The payload the nodes of a handle hold under an id, as a lookup routed
    through the ring sees it. *)
Definition stored `{NodeEngine} (h : DbHandle.t) (key : bytes) : option bytes :=
  match target h key with
  | inr (_, store) => store !! key
  | inl _ => None
  end.

(** The elements of a result of [DBReader.fetched_dataset], without
    [db_read_total] (a sum of values [db_read] takes from released
    documents). *)
Definition elements {A B} (o : outcome (A * B)) : outcome A :=
  match o with
  | Return (a, _) => Return a
  | Raise e => Raise e
  end.

(** A character of a key that UTF-8 encodes as one octet other than NUL. *)
Definition plain_char (c : ascii) : bool :=
  let n := N_of_ascii c in (0 <? n)%N && (n <? 128)%N.

(** A string of such characters only. *)
Fixpoint plain (s : str) : bool :=
  match s with
  | EmptyString => true
  | String c s' => plain_char c && plain s'
  end.

(** Concatenation of Python strings. *)
Definition concat_str (l : list str) : str := foldr String.append EmptyString l.

(** A run of [db_write] calls, one per (key, payload) pair, in order: what
    the loops of [DBGenerator.generate] do to the client. *)
Definition write_all `{NodeEngine} (ws : list (pyval * bytes)) : Py DbWrapper.t unit :=
  for_each ws (fun w => DbWrapper.db_write w.1 w.2).

(** ** Bytes and buffers *)

Lemma until_nul_terminated (b : bytes) : until_nul (b ++ [x00]) = until_nul b.
Proof.
  induction b as [|c b IH]; cbn.
  - reflexivity.
  - destruct (decide (c = x00)); [reflexivity | by rewrite IH].
Qed.

Lemma until_nul_id (b : bytes) : x00 ∉ b -> until_nul b = b.
Proof.
  induction b as [|c b IH]; cbn; intros Hb.
  - reflexivity.
  - destruct (decide (c = x00)) as [->|_].
    + exfalso. apply Hb. left.
    + f_equal. apply IH. intros Hin. apply Hb. by right.
Qed.

Lemma until_nul_cut (b : bytes) : x00 ∈ b -> until_nul b <> b.
Proof.
  induction b as [|c b IH]; cbn; intros Hb.
  - by apply elem_of_nil in Hb.
  - destruct (decide (c = x00)) as [->|Hc]; [discriminate|].
    apply elem_of_cons in Hb as [Hb|Hb]; [congruence|].
    intros Heq. apply (IH Hb). congruence.
Qed.

Lemma until_nul_shorter (b : bytes) : x00 ∈ b -> length (until_nul b) < length b.
Proof.
  induction b as [|c b IH]; cbn; intros Hb.
  - by apply elem_of_nil in Hb.
  - destruct (decide (c = x00)) as [->|Hc]; cbn; [lia|].
    apply elem_of_cons in Hb as [Hb|Hb]; [congruence|].
    specialize (IH Hb). lia.
Qed.

Lemma sized_bytes_c_char_p (b : bytes) :
  sized_bytes (SizedBuf.mk (c_char_p b) (length b)) = b.
Proof. unfold sized_bytes, c_char_p. cbn. apply take_app_length. Qed.

Lemma read_id_write_id (key : str) :
  x00 ∉ encode_utf8 key -> read_id key = write_id key.
Proof.
  intros Hk. unfold read_id, write_id, sized_bytes, as_char_p, c_char_p_value, c_char_p.
  cbn. by rewrite until_nul_terminated, until_nul_id.
Qed.

(** ** Running the methods *)

Section WithEngine.
Context `{E : NodeEngine}.

Implicit Types (self : DbWrapper.t) (h : DbHandle.t) (uri : pyval).

Lemma route_owner ring key idx :
  route ring key = inr idx -> exists p, p ∈ positions ring /\ p.2 = idx.
Proof.
  unfold route. destruct (positions ring) as [|first l] eqn:Hpos; [discriminate|].
  destruct (List.find _ _) as [p|] eqn:Hfind; intros [= <-].
  - apply find_some in Hfind as [Hin _]. exists p. split; [|done].
    by apply list_elem_of_In.
  - exists first. split; [left|done].
Qed.

Lemma route_empty ring key : positions ring = [] -> route ring key = inl EmptyRing.
Proof. unfold route. by intros ->. Qed.

Lemma route_nonempty ring key :
  positions ring <> [] -> exists idx, route ring key = inr idx.
Proof.
  unfold route. destruct (positions ring) as [|first l]; [done|]. intros _.
  destruct (List.find _ _); eauto.
Qed.

Lemma target_ready self h key :
  DbWrapper.handle self = Some h -> ready self = true ->
  exists idx store,
    target h key = inr (idx, store) /\ DbHandle.dbs h !! idx = Some (Some store).
Proof.
  unfold ready, target. intros ->.
  destruct (DbHandle.ch h) as [ring|]; [|discriminate].
  destruct (positions ring) as [|first l] eqn:Hpos; [discriminate|].
  intros Hall.
  destruct (route_nonempty ring key) as [idx Hidx]; [by rewrite Hpos|].
  rewrite Hidx. apply route_owner in Hidx as (p & Hp & <-).
  rewrite Hpos in Hp. rewrite forallb_forall in Hall.
  apply list_elem_of_In, Hall in Hp. unfold open_node in Hp.
  destruct (DbHandle.dbs h !! p.2) as [[store|]|] eqn:Hdb; try discriminate.
  by exists p.2, store.
Qed.

(** [db_write] on an initialised client: one put, one append, one commit. *)
Lemma db_write_run self h uri data :
  DbWrapper.handle self = Some h ->
  let key := fmt uri in
  let doc :=
    Doc.mk (SizedBuf.mk (c_char_p (encode_utf8 key)) (len key))
           (SizedBuf.mk (c_char_p data) (length data)) in
  let r := couchstore_save_document_to_nodes h doc in
  DbWrapper.db_write uri data self =
    (Return tt,
     DbWrapper.mk (Some r.2) (DbWrapper.dataset_key self ++ [key]),
     [EvSave r.1 (write_id key) data; EvAppendKey key;
      EvCommit (couchstore_commit_nodes r.2)]).
Proof.
  intros Hh key doc r. destruct self as [hd keys]. cbn in Hh. subst hd.
  unfold DbWrapper.db_write, DbWrapper.save_document, DbWrapper.commit_nodes,
    DbWrapper.dataset_key_append, DbWrapper.set_handle, bind, get_state, byref,
    ret, emit. cbn.
  fold key. fold doc. fold r. destruct r as [st h']. cbn.
  by rewrite take_app_length.
Qed.

Lemma db_write_uninitialised self uri data :
  DbWrapper.handle self = None ->
  DbWrapper.db_write uri data self =
    (Raise (TypeError
       "byref() argument must be a ctypes instance, not 'NoneType'"),
     self, []).
Proof.
  intros Hh. destruct self as [hd keys]. cbn in Hh. subst hd. reflexivity.
Qed.

(** [db_read] on an initialised client, by what the node lookup gives. *)
Lemma db_read_run self h uri dataset :
  DbWrapper.handle self = Some h ->
  let key := fmt uri in
  let arg := as_char_p (c_char_p_value (c_char_p (encode_utf8 key))) in
  DbWrapper.db_read self uri dataset =
    match couchstore_open_document_from_nodes h arg (len key) with
    | (st, Some d) =>
        (Return (SizedBuf.size (Doc.data d)),
         dataset ++ [c_char_p_value (SizedBuf.buf (Doc.data d))],
         [EvOpenDoc st (read_id key); EvGetField data_buf; EvSetField id_buf;
          EvFreeDoc; EvGetField data_size])
    | (st, None) =>
        (Raise (ValueError "NULL pointer access"), dataset,
         [EvOpenDoc st (read_id key)])
    end.
Proof.
  intros Hh key arg. unfold DbWrapper.db_read. rewrite Hh.
  subst key arg. unfold bind, byref, ret. cbn.
  destruct (couchstore_open_document_from_nodes _ _ _) as [st [d|]];
    reflexivity.
Qed.

(** A put that reaches its node is seen by the next lookup of the same id. *)
Lemma save_then_target h doc idx store :
  target h (sized_bytes (Doc.id doc)) = inr (idx, store) ->
  let key := sized_bytes (Doc.id doc) in
  let r := couchstore_save_document_to_nodes h doc in
  r.1 = SUCCESS /\
  target r.2 key = inr (idx, <[key := sized_bytes (Doc.data doc)]> store).
Proof.
  intros Ht key r. subst r. unfold couchstore_save_document_to_nodes.
  fold key in Ht |- *. rewrite Ht. cbn. split; [done|].
  unfold target in *. cbn.
  destruct (DbHandle.ch h) as [ring|]; [|discriminate].
  destruct (route ring key) as [e|i]; [discriminate|].
  destruct (DbHandle.dbs h !! i) as [[st|]|] eqn:Hdb; try discriminate.
  injection Ht as -> ->.
  rewrite list_lookup_insert_eq; [done|]. by eapply lookup_lt_Some.
Qed.

Lemma ready_initialised self :
  ready self = true -> exists h, DbWrapper.handle self = Some h.
Proof. unfold ready. destruct (DbWrapper.handle self); [eauto|discriminate]. Qed.

Lemma db_read_found self h uri dataset idx store payload :
  DbWrapper.handle self = Some h ->
  target h (read_id (fmt uri)) = inr (idx, store) ->
  store !! read_id (fmt uri) = Some payload ->
  DbWrapper.db_read self uri dataset =
    (Return (length payload), dataset ++ [Some (until_nul payload)],
     [EvOpenDoc SUCCESS (read_id (fmt uri)); EvGetField data_buf;
      EvSetField id_buf; EvFreeDoc; EvGetField data_size]).
Proof.
  intros Hh Ht Hs. rewrite (db_read_run self h) by done.
  unfold couchstore_open_document_from_nodes. fold (read_id (fmt uri)).
  rewrite Ht, Hs. cbn. by rewrite until_nul_terminated.
Qed.

Lemma db_read_not_found self h uri dataset :
  DbWrapper.handle self = Some h ->
  absent self (read_id (fmt uri)) ->
  exists e,
    DbWrapper.db_read self uri dataset =
      (Raise (ValueError "NULL pointer access"), dataset,
       [EvOpenDoc (ERROR e) (read_id (fmt uri))]).
Proof.
  intros Hh Habs. rewrite (db_read_run self h) by done.
  unfold couchstore_open_document_from_nodes. fold (read_id (fmt uri)).
  destruct (target h (read_id (fmt uri))) as [e|[idx store]] eqn:Ht; [by eauto|].
  assert (store !! read_id (fmt uri) = None) as ->; [|by eauto].
  unfold target in Ht.
  destruct (DbHandle.ch h) as [ring|]; [|discriminate].
  destruct (route ring _) as [e|i]; [discriminate|].
  destruct (DbHandle.dbs h !! i) as [[st|]|] eqn:Hdb; try discriminate.
  injection Ht as -> ->. by eapply Habs.
Qed.

End WithEngine.

(** ** Write, then read *)

(** C2: [db_write(key, payload)] followed by [db_read(key)] on a client whose
    ring routes to open nodes. The write succeeds and stores the whole
    payload under the key; the read returns the recorded length
    [len(payload)], but the element it appends to [dataset] is the payload
    only up to its first NUL octet, since the buffer is read as a C string.
    A payload holding a NUL is therefore not returned byte for byte. *)
Theorem db_read_after_db_write_stops_at_nul `{E : NodeEngine}
    (self : DbWrapper.t) (uri : pyval) (data : bytes) (dataset : list (option bytes)) :
  ready self = true ->
  x00 ∉ encode_utf8 (fmt uri) ->
  let w := DbWrapper.db_write uri data self in
  let r := DbWrapper.db_read (state_of w) uri dataset in
  outcome_of w = Return tt /\
  (exists st, journal_of w =
     [EvSave SUCCESS (write_id (fmt uri)) data; EvAppendKey (fmt uri);
      EvCommit st]) /\
  outcome_of r = Return (length data) /\
  state_of r = dataset ++ [Some (until_nul data)] /\
  (x00 ∈ data -> until_nul data <> data /\ length (until_nul data) < length data).
Proof.
  intros Hready Hkey w r.
  destruct (ready_initialised self Hready) as [h Hh].
  destruct (target_ready self h (write_id (fmt uri)) Hh Hready)
    as (idx & store & Ht & _).
  pose proof (db_write_run self h uri data Hh) as Hw. cbn zeta in Hw.
  set (doc := Doc.mk _ _) in Hw.
  destruct (save_then_target h doc idx store Ht) as [Hst Ht'].
  cbn zeta in Ht'. change (sized_bytes (Doc.id doc)) with (write_id (fmt uri)) in Ht'.
  assert (sized_bytes (Doc.data doc) = data) as Hdata
    by apply sized_bytes_c_char_p.
  rewrite Hdata in Ht'. rewrite <- (read_id_write_id _ Hkey) in Ht'.
  subst w r. rewrite Hw. unfold outcome_of, state_of, journal_of. cbn [fst snd].
  erewrite db_read_found; [|reflexivity|exact Ht'|apply lookup_insert_eq].
  cbn [fst snd]. rewrite Hst. repeat split; try done.
  - by eexists.
  - by apply until_nul_cut.
  - by apply until_nul_shorter.
Qed.

Lemma db_read_after_db_write_stops_at_nul_witness :
  let w := @DbWrapper.db_write sample_engine (PyStr "k") [x61; x00; x62] sample_client in
  let r := @DbWrapper.db_read sample_engine (state_of w) (PyStr "k") [] in
  outcome_of w = Return tt /\
  (exists st, journal_of w =
     [EvSave SUCCESS (write_id "k") [x61; x00; x62]; EvAppendKey "k";
      EvCommit st]) /\
  outcome_of r = Return 3 /\
  state_of r = [Some [x61]] /\
  (x00 ∈ [x61; x00; x62] ->
   until_nul [x61; x00; x62] <> [x61; x00; x62] /\
   length (until_nul [x61; x00; x62]) < 3).
Proof.
  apply (@db_read_after_db_write_stops_at_nul sample_engine
           sample_client (PyStr "k") [x61; x00; x62] []).
  - vm_compute. reflexivity.
  - vm_compute. intros Hin. repeat (apply elem_of_cons in Hin as [Hin|Hin]; [discriminate|]).
    by apply elem_of_nil in Hin.
Defined.



(** ** Reading a key that is not stored *)

Lemma db_init_handle `{E : NodeEngine} (n : nat) (name path : str) (self : DbWrapper.t) :
  DbWrapper.db_init n name path self =
    (Return tt,
     DbWrapper.mk
       (Some (DbHandle.mk ((fun i => Some (persisted path i)) <$> seq 0 n)
                (Some (foldl add_node (create_consistent_hashing 32) (seq 0 n)))
                n))
       (DbWrapper.dataset_key self),
     []).
Proof. reflexivity. Qed.

Lemma db_init_absent `{E : NodeEngine} (n : nat) (name path : str)
    (self : DbWrapper.t) (key : bytes) :
  (forall i, persisted path i !! key = None) ->
  absent (state_of (DbWrapper.db_init n name path self)) key.
Proof.
  intros Hp h i store. rewrite db_init_handle. unfold state_of. cbn.
  intros [= <-]. cbn. rewrite list_lookup_fmap.
  destruct (seq 0 n !! i) as [k|]; cbn; [|discriminate].
  intros [= <-]. apply Hp.
Qed.

(** C3, as the code has it: [db_read] of a key without U+0000 that no node
    holds raises the [ValueError] of a NULL pointer access, whatever status
    the node engine reported, and appends nothing to [dataset]. The key is
    kept free of U+0000 because only then is the id of the lookup the id
    [db_write] stores the key under (the octets of the key), so that
    "no node holds the key" has its plain meaning. *)
Theorem db_read_absent_key_raises_ValueError `{E : NodeEngine}
    (self : DbWrapper.t) (uri : pyval) (dataset : list (option bytes)) :
  is_Some (DbWrapper.handle self) ->
  x00 ∉ encode_utf8 (fmt uri) ->
  absent self (write_id (fmt uri)) ->
  let r := DbWrapper.db_read self uri dataset in
  outcome_of r = Raise (ValueError "NULL pointer access") /\
  state_of r = dataset /\
  (exists e, journal_of r = [EvOpenDoc (ERROR e) (write_id (fmt uri))]).
Proof.
  intros [h Hh] Hkey Habs r. subst r.
  rewrite <- (read_id_write_id _ Hkey) in Habs |- *.
  destruct (db_read_not_found self h uri dataset Hh Habs) as [e ->].
  repeat split. by exists e.
Qed.

Lemma db_read_absent_key_raises_ValueError_witness :
  let r := @DbWrapper.db_read sample_engine sample_client (PyStr "z") [] in
  outcome_of r = Raise (ValueError "NULL pointer access") /\
  state_of r = [] /\
  (exists e, journal_of r = [EvOpenDoc (ERROR e) (write_id "z")]).
Proof.
  apply (@db_read_absent_key_raises_ValueError sample_engine sample_client (PyStr "z") []).
  - vm_compute. eexists. reflexivity.
  - vm_compute. intros Hin. repeat (apply elem_of_cons in Hin as [Hin|Hin]; [discriminate|]).
    by apply elem_of_nil in Hin.
  - apply (@db_init_absent sample_engine). intros i. apply lookup_empty.
Defined.

(** C3, as the claim has it, fails: on a client that was never written,
    reading the key ["z"] raises [ValueError], which is not the typed error
    [KeyNotFound]. *)
Lemma db_read_missing_key_not_KeyNotFound :
  let r := @DbWrapper.db_read sample_engine sample_client (PyStr "z") [] in
  DbWrapper.dataset_key sample_client = [] /\
  outcome_of r = Raise (ValueError "NULL pointer access") /\
  ~ fails_with KeyNotFound (outcome_of r).
Proof.
  cbn zeta. split; [reflexivity|]. split; [by vm_compute|].
  intros (e & He & Herr). vm_compute in He. injection He as <-. discriminate.
Qed.

(** ** What a write adds to [dataset_key] *)

(** C5, as the code has it: every [db_write] on an initialised client
    returns normally and appends exactly one entry, the key, to
    [dataset_key], after the put and before the commit, whatever status the
    put returned. *)
Theorem db_write_appends_key_between_put_and_commit `{E : NodeEngine}
    (self : DbWrapper.t) (uri : pyval) (data : bytes) :
  is_Some (DbWrapper.handle self) ->
  let w := DbWrapper.db_write uri data self in
  outcome_of w = Return tt /\
  (exists st st', journal_of w =
     [EvSave st (write_id (fmt uri)) data; EvAppendKey (fmt uri); EvCommit st']) /\
  DbWrapper.dataset_key (state_of w) = DbWrapper.dataset_key self ++ [fmt uri].
Proof.
  intros [h Hh] w. subst w. rewrite (db_write_run self h) by done.
  repeat split. by eexists _, _.
Qed.

Lemma db_write_appends_key_between_put_and_commit_witness :
  let w := @DbWrapper.db_write sample_engine (PyStr "k") [x61] sample_client in
  outcome_of w = Return tt /\
  (exists st st', journal_of w =
     [EvSave st (write_id "k") [x61]; EvAppendKey "k"; EvCommit st']) /\
  DbWrapper.dataset_key (state_of w) = DbWrapper.dataset_key sample_client ++ ["k"].
Proof.
  apply (@db_write_appends_key_between_put_and_commit sample_engine
           sample_client (PyStr "k") [x61]).
  vm_compute. eexists. reflexivity.
Defined.

(** C5, as the claim has it, fails: on a closed client the put of
    [db_write("k", b"a")] is rejected by the node, and the key is appended
    to [dataset_key] all the same. *)
Lemma db_write_failed_put_still_appends :
  let w := @DbWrapper.db_write sample_engine (PyStr "k") [x61] closed_client in
  put_failed (journal_of w) /\
  DbWrapper.dataset_key closed_client = [] /\
  DbWrapper.dataset_key (state_of w) = ["k"].
Proof.
  cbn zeta. split; [|split; reflexivity].
  exists Closed, [x6b], [x61]. vm_compute. left.
Qed.

(** ** A ring without nodes *)

(** C6, as the code has it: [db_init(0)] is not rejected. It returns
    normally and leaves a handle with no node and a ring with no position,
    on which every route fails with [EmptyRing]. *)
Theorem db_init_zero_nodes_succeeds `{E : NodeEngine}
    (name path : str) (self : DbWrapper.t) :
  let r := DbWrapper.db_init 0 name path self in
  outcome_of r = Return tt /\
  DbWrapper.handle (state_of r) =
    Some (DbHandle.mk [] (Some (mkRing 32 [])) 0) /\
  (forall key, route (mkRing 32 []) key = inl EmptyRing).
Proof. repeat split. Qed.

(** C6, as the claim has it, fails: [db_init(0)] returns normally, it does
    not fail with [InvalidTopology], and the ring it builds has no
    position. *)
Lemma db_init_zero_nodes_not_InvalidTopology :
  let r := @DbWrapper.db_init sample_engine 0 "rocksdb" "test_simple_dir/rocks/node"
             (DbWrapper.mk None []) in
  outcome_of r = Return tt /\
  ~ fails_with InvalidTopology (outcome_of r) /\
  (DbWrapper.handle (state_of r) ≫= DbHandle.ch) = Some (mkRing 32 []).
Proof.
  cbn zeta. split; [reflexivity|]. split; [|reflexivity].
  intros (e & He & _). discriminate.
Qed.

(** ** After [db_close] *)

Lemma target_closed `{E : NodeEngine} (h : DbHandle.t) (key : bytes) :
  exists e, target (couchstore_close_multiple_dbs h).2 key = inl e.
Proof.
  unfold target, couchstore_close_multiple_dbs. cbn.
  destruct (DbHandle.ch h) as [ring|]; [|by eauto].
  destruct (route ring key) as [e|idx]; [by eauto|].
  rewrite list_lookup_fmap. destruct (DbHandle.dbs h !! idx); cbn; eauto.
Qed.

Lemma save_document_rejected `{E : NodeEngine}
    (self : DbWrapper.t) (h : DbHandle.t) (doc : Doc.t) (e : StorageError) :
  DbWrapper.handle self = Some h ->
  target h (sized_bytes (Doc.id doc)) = inl e ->
  DbWrapper.save_document doc self =
    (Return tt, self,
     [EvSave (ERROR e) (sized_bytes (Doc.id doc)) (sized_bytes (Doc.data doc))]).
Proof.
  intros Hh Ht. destruct self as [hd keys]. cbn in Hh. subst hd.
  unfold DbWrapper.save_document, couchstore_save_document_to_nodes, bind,
    get_state, byref, ret, emit, DbWrapper.set_handle. cbn. by rewrite Ht.
Qed.

Lemma for_each_rejected `{E : NodeEngine}
    (self : DbWrapper.t) (h : DbHandle.t) (docs : nat -> Doc.t) (l : list nat) :
  DbWrapper.handle self = Some h ->
  (forall key, exists e, target h key = inl e) ->
  let r := for_each l (fun i => DbWrapper.save_document (docs i)) self in
  outcome_of r = Return tt /\ state_of r = self /\
  Forall (fun ev => exists e k v, ev = EvSave (ERROR e) k v) (journal_of r).
Proof.
  intros Hh Hcl. induction l as [|i l IH]; cbn zeta.
  - repeat split. constructor.
  - destruct (Hcl (sized_bytes (Doc.id (docs i)))) as [e He].
    cbn [for_each]. unfold bind.
    rewrite (save_document_rejected self h _ e) by done.
    destruct IH as (Ho & Hs & Hj).
    destruct (for_each l _ self) as [[o s] j].
    unfold outcome_of, state_of, journal_of in *. cbn in *. subst.
    repeat split. constructor; [by eauto|done].
Qed.

Lemma db_close_run (self : DbWrapper.t) (h : DbHandle.t) :
  DbWrapper.handle self = Some h ->
  DbWrapper.db_close self =
    (Return tt,
     DbWrapper.mk (Some (couchstore_close_multiple_dbs h).2)
       (DbWrapper.dataset_key self),
     []).
Proof.
  intros Hh. destruct self as [hd keys]. cbn in Hh. subst hd. reflexivity.
Qed.

(** C9, as the code has it: after [db_close] no operation fails with
    [Closed]. The node engine rejects every put and get, but the wrapper
    drops the status: [db_write] returns normally, stores nothing and still
    appends the key; [db_checkpoint] returns normally and changes nothing;
    [db_read] raises the [ValueError] of a NULL pointer access and appends
    nothing. *)
Theorem operations_after_db_close `{E : NodeEngine}
    (self : DbWrapper.t) (uri : pyval) (data : bytes) (text : str)
    (dataset : list (option bytes)) :
  is_Some (DbWrapper.handle self) ->
  let closed := state_of (DbWrapper.db_close self) in
  let w := DbWrapper.db_write uri data closed in
  let c := DbWrapper.db_checkpoint uri text closed in
  let r := DbWrapper.db_read closed uri dataset in
  (outcome_of w = Return tt /\
   put_failed (journal_of w) /\
   DbWrapper.handle (state_of w) = DbWrapper.handle closed /\
   DbWrapper.dataset_key (state_of w) = DbWrapper.dataset_key self ++ [fmt uri]) /\
  (outcome_of c = Return tt /\ state_of c = closed) /\
  (outcome_of r = Raise (ValueError "NULL pointer access") /\ state_of r = dataset).
Proof.
  intros [h Hh] closed w c r.
  assert (closed = DbWrapper.mk (Some (couchstore_close_multiple_dbs h).2)
                     (DbWrapper.dataset_key self)) as Hclosed.
  { subst closed. by rewrite (db_close_run self h). }
  set (h' := (couchstore_close_multiple_dbs h).2) in *.
  assert (DbWrapper.handle closed = Some h') as Hh' by by rewrite Hclosed.
  assert (forall key, exists e, target h' key = inl e) as Hrej
    by (intros key; apply target_closed).
  split; [|split].
  - subst w. rewrite (db_write_run closed h') by done. cbn zeta.
    unfold couchstore_save_document_to_nodes.
    destruct (Hrej (sized_bytes (SizedBuf.mk (c_char_p (encode_utf8 (fmt uri)))
                                   (len (fmt uri))))) as [e He].
    cbn [Doc.id]. rewrite He. unfold outcome_of, state_of, journal_of. cbn.
    repeat split; [|by rewrite Hclosed..].
    exists e. eexists _, _. left.
  - destruct (for_each_rejected closed h' (DbWrapper.chunk_doc text)
                (seq 0 (len text / DbWrapper.bs + 1 - 1)) Hh' Hrej) as (Ho & Hs & _).
    by split.
  - subst r. rewrite (db_read_run closed h') by done. cbn zeta.
    unfold couchstore_open_document_from_nodes.
    destruct (Hrej (sized_bytes
      (SizedBuf.mk (as_char_p (c_char_p_value (c_char_p (encode_utf8 (fmt uri)))))
         (len (fmt uri))))) as [e ->].
    by split.
Qed.

Lemma operations_after_db_close_witness :
  let closed := state_of (DbWrapper.db_close sample_client) in
  let w := @DbWrapper.db_write sample_engine (PyStr "k") [x61] closed in
  let c := @DbWrapper.db_checkpoint sample_engine (PyStr "k") "a" closed in
  let r := @DbWrapper.db_read sample_engine closed (PyStr "k") [] in
  (outcome_of w = Return tt /\
   put_failed (journal_of w) /\
   DbWrapper.handle (state_of w) = DbWrapper.handle closed /\
   DbWrapper.dataset_key (state_of w) = DbWrapper.dataset_key sample_client ++ ["k"]) /\
  (outcome_of c = Return tt /\ state_of c = closed) /\
  (outcome_of r = Raise (ValueError "NULL pointer access") /\ state_of r = []).
Proof.
  apply (@operations_after_db_close sample_engine sample_client (PyStr "k") [x61] "a" []).
  vm_compute. eexists. reflexivity.
Defined.

(** C9, as the claim has it, fails: after [db_close], [db_write("k", b"a")]
    returns normally; it does not fail with [Closed]. *)
Lemma db_write_after_db_close_not_Closed :
  let w := @DbWrapper.db_write sample_engine (PyStr "k") [x61] closed_client in
  outcome_of w = Return tt /\ ~ fails_with Closed (outcome_of w).
Proof.
  cbn zeta. split; [reflexivity|]. intros (e & He & _). discriminate.
Qed.

(** ** Checkpoints *)

Lemma bs_pos : 0 < DbWrapper.bs.
Proof. apply Nat.ltb_lt. vm_compute. reflexivity. Qed.

Lemma length_substring (s : str) (a n : nat) :
  String.length (substring a n s) = Nat.min n (String.length s - a).
Proof.
  revert a n. induction s as [|c s IH]; intros a n.
  - destruct a, n; cbn; lia.
  - destruct a as [|a].
    + destruct n as [|n]; cbn; [lia|]. rewrite IH. lia.
    + cbn. apply IH.
Qed.

(** A chunk inside the loop bound is a full chunk of [bs] characters. *)
Lemma chunk_doc_size (data : str) (i : nat) :
  i < len data / DbWrapper.bs ->
  SizedBuf.size (Doc.data (DbWrapper.chunk_doc data i)) = DbWrapper.bs.
Proof.
  intros Hi.
  change (SizedBuf.size (Doc.data (DbWrapper.chunk_doc data i)))
    with (len (slice data (i * DbWrapper.bs) ((i + 1) * DbWrapper.bs))).
  unfold slice, len in *. rewrite length_substring. pose proof bs_pos as Hbs.
  set (b := DbWrapper.bs) in *. set (n := String.length data) in *.
  assert (b * S i <= n).
  { transitivity (b * (n / b)); [apply Nat.mul_le_mono_l; lia|].
    apply Nat.Div0.mul_div_le. }
  assert ((i + 1) * b - i * b = b) as -> by lia.
  assert (b <= n - i * b) by lia. lia.
Qed.

Lemma floor_lt_ceil (n b : nat) : 0 < b -> n mod b <> 0 -> n / b < ceil_div n b.
Proof.
  intros Hb Hmod. unfold ceil_div.
  apply Nat.div_le_lower_bound; [lia|].
  pose proof (Nat.div_mod_eq n b). nia.
Qed.

Lemma save_document_run `{E : NodeEngine}
    (self : DbWrapper.t) (h : DbHandle.t) (doc : Doc.t) :
  DbWrapper.handle self = Some h ->
  let r := couchstore_save_document_to_nodes h doc in
  DbWrapper.save_document doc self =
    (Return tt, DbWrapper.mk (Some r.2) (DbWrapper.dataset_key self),
     [EvSave r.1 (sized_bytes (Doc.id doc)) (sized_bytes (Doc.data doc))]).
Proof.
  intros Hh r. destruct self as [hd keys]. cbn in Hh. subst hd.
  unfold DbWrapper.save_document, bind, get_state, byref, ret, emit,
    DbWrapper.set_handle. cbn. fold r. by destruct r.
Qed.

Lemma save_document_uninitialised `{E : NodeEngine} (self : DbWrapper.t) (doc : Doc.t) :
  DbWrapper.handle self = None ->
  DbWrapper.save_document doc self =
    (Raise (TypeError
       "byref() argument must be a ctypes instance, not 'NoneType'"),
     self, []).
Proof.
  intros Hh. destruct self as [hd keys]. cbn in Hh. subst hd. reflexivity.
Qed.

(** The loop of [db_checkpoint] on an initialised client: one put per index,
    in order, and nothing else. *)
Lemma checkpoint_loop `{E : NodeEngine} (data : str) (l : list nat) :
  forall self : DbWrapper.t,
  is_Some (DbWrapper.handle self) ->
  let r := for_each l (fun i => DbWrapper.save_document (DbWrapper.chunk_doc data i)) self in
  outcome_of r = Return tt /\
  saved (journal_of r) =
    (fun i => (sized_bytes (Doc.id (DbWrapper.chunk_doc data i)),
               sized_bytes (Doc.data (DbWrapper.chunk_doc data i)))) <$> l.
Proof.
  induction l as [|i l IH]; intros self [h Hh]; cbn zeta.
  - by split.
  - cbn [for_each]. unfold bind. rewrite (save_document_run self h) by done.
    cbn zeta. set (self' := DbWrapper.mk _ _).
    destruct (IH self') as [Ho Hs]; [by eexists|].
    destruct (for_each l _ self') as [[o s] j].
    unfold outcome_of, journal_of in *. cbn in *. subst o.
    split; [done|]. by rewrite Hs.
Qed.


Lemma db_checkpoint_loop `{E : NodeEngine} (uri : pyval) (data : str) (self : DbWrapper.t) :
  DbWrapper.db_checkpoint uri data self =
    for_each (seq 0 (len data / DbWrapper.bs))
      (fun i => DbWrapper.save_document (DbWrapper.chunk_doc data i)) self.
Proof. unfold DbWrapper.db_checkpoint. by rewrite Nat.add_sub. Qed.

(** C1: on an initialised client [db_checkpoint(uri, data)] returns normally
    and emits exactly [len(data) // bs] chunks, those of indices
    [0 .. len(data) // bs - 1], each of [bs] characters. That is fewer than
    [ceil(len(data) / bs)] whenever [len(data)] is not a multiple of [bs]:
    the final short chunk is not emitted, and for [len(data) < bs] nothing
    is emitted at all. *)
Theorem db_checkpoint_emits_floor_chunks `{E : NodeEngine}
    (self : DbWrapper.t) (uri : pyval) (data : str) :
  is_Some (DbWrapper.handle self) ->
  let c := DbWrapper.db_checkpoint uri data self in
  outcome_of c = Return tt /\
  saved (journal_of c) =
    (fun i => (sized_bytes (Doc.id (DbWrapper.chunk_doc data i)),
               sized_bytes (Doc.data (DbWrapper.chunk_doc data i))))
      <$> seq 0 (len data / DbWrapper.bs) /\
  (forall i, i < len data / DbWrapper.bs ->
     SizedBuf.size (Doc.data (DbWrapper.chunk_doc data i)) = DbWrapper.bs) /\
  (len data mod DbWrapper.bs <> 0 ->
     length (saved (journal_of c)) < ceil_div (len data) DbWrapper.bs) /\
  (len data < DbWrapper.bs -> journal_of c = [] /\ state_of c = self).
Proof.
  intros Hh c. subst c. rewrite db_checkpoint_loop.
  destruct (checkpoint_loop data (seq 0 (len data / DbWrapper.bs)) self Hh)
    as [Ho Hs].
  repeat split; try done.
  - intros i Hi. by apply chunk_doc_size.
  - intros Hmod. rewrite Hs, length_fmap, length_seq.
    apply floor_lt_ceil; [apply bs_pos|done].
  - by rewrite Nat.div_small.
  - by rewrite Nat.div_small.
Qed.

Lemma db_checkpoint_emits_floor_chunks_witness :
  let c := @DbWrapper.db_checkpoint sample_engine (PyStr "u") "a" sample_client in
  outcome_of c = Return tt /\
  saved (journal_of c) =
    (fun i => (sized_bytes (Doc.id (DbWrapper.chunk_doc "a" i)),
               sized_bytes (Doc.data (DbWrapper.chunk_doc "a" i))))
      <$> seq 0 (len "a" / DbWrapper.bs) /\
  (forall i, i < len "a" / DbWrapper.bs ->
     SizedBuf.size (Doc.data (DbWrapper.chunk_doc "a" i)) = DbWrapper.bs) /\
  (len "a" mod DbWrapper.bs <> 0 ->
     length (saved (journal_of c)) < ceil_div (len "a") DbWrapper.bs) /\
  (len "a" < DbWrapper.bs -> journal_of c = [] /\ state_of c = sample_client).
Proof.
  apply (@db_checkpoint_emits_floor_chunks sample_engine sample_client (PyStr "u") "a").
  vm_compute. eexists. reflexivity.
Defined.

(** C8, as the claim has it, fails: the checkpoints of one chunk of data
    under the distinct uris ["a"] and ["b"] both store it under the key
    ["c0"]; their key sets are not disjoint. *)
Lemma db_checkpoint_distinct_uris_share_keys :
  let keys uri :=
    (saved (journal_of (@DbWrapper.db_checkpoint sample_engine uri one_chunk sample_client))).*1 in
  PyStr "a" <> PyStr "b" /\
  keys (PyStr "a") = [[x63; x30]] /\
  keys (PyStr "b") = [[x63; x30]] /\
  ~ (forall k, k ∈ keys (PyStr "a") -> k ∉ keys (PyStr "b")).
Proof.
  intros keys.
  assert (forall uri, keys uri = [[x63; x30]]) as Hkeys
    by (intros uri; vm_compute; reflexivity).
  split; [discriminate|]. split; [apply Hkeys|]. split; [apply Hkeys|].
  intros Hdisj. apply (Hdisj [x63; x30]); rewrite Hkeys; left.
Qed.

(** ** The frame of a checkpoint *)




(** ** The ring and the nodes of a new client *)

Lemma length_ring_insert (p : N * nat) (l : list (N * nat)) :
  length (ring_insert p l) = S (length l).
Proof.
  induction l as [|q l IH]; cbn; [done|].
  destruct (p.1 <=? q.1)%N; cbn; by rewrite ?IH.
Qed.

Lemma Forall_ring_insert (P : N * nat -> Prop) (p : N * nat) (l : list (N * nat)) :
  P p -> Forall P l -> Forall P (ring_insert p l).
Proof.
  intros Hp. induction 1 as [|q l Hq Hl IH]; cbn.
  - by repeat constructor.
  - destruct (p.1 <=? q.1)%N; by repeat constructor.
Qed.

Section Ring.
Context `{E : NodeEngine}.

Lemma add_node_replicas (ring : HashRing) (i : nat) :
  virtual_replicas (add_node ring i) = virtual_replicas ring.
Proof. reflexivity. Qed.

Lemma add_node_length (ring : HashRing) (i : nat) :
  length (positions (add_node ring i)) =
    virtual_replicas ring + length (positions ring).
Proof.
  unfold add_node. cbn [positions].
  assert (forall xs base, length (foldr ring_insert base xs) = length xs + length base)
    as Hfold.
  { induction xs as [|x xs IH]; intros base; cbn; [done|].
    by rewrite length_ring_insert, IH. }
  by rewrite Hfold, length_fmap, length_seq.
Qed.

Lemma add_node_Forall (P : N * nat -> Prop) (ring : HashRing) (i : nat) :
  (forall r, P (hash_vnode i r, i)) ->
  Forall P (positions ring) -> Forall P (positions (add_node ring i)).
Proof.
  intros Hi Hring. unfold add_node. cbn [positions].
  induction (seq 0 (virtual_replicas ring)) as [|r rs IH]; cbn; [done|].
  by apply Forall_ring_insert.
Qed.

Lemma add_nodes (P : N * nat -> Prop) (l : list nat) :
  forall ring : HashRing,
  (forall i r, i ∈ l -> P (hash_vnode i r, i)) ->
  Forall P (positions ring) ->
  let ring' := foldl add_node ring l in
  virtual_replicas ring' = virtual_replicas ring /\
  length (positions ring') =
    length l * virtual_replicas ring + length (positions ring) /\
  Forall P (positions ring').
Proof.
  induction l as [|i l IH]; intros ring Hl Hring; cbn zeta.
  - by repeat split.
  - cbn [foldl]. destruct (IH (add_node ring i)) as (Hv & Hlen & HP).
    + intros j r Hj. apply Hl. by right.
    + apply add_node_Forall; [|done]. intros r. apply Hl. left.
    + rewrite Hv, Hlen, add_node_replicas, add_node_length.
      repeat split; [cbn; lia|done].
Qed.

(** The client [db_init(n)] builds: [n] open nodes, and a ring of [32 * n]
    positions owned by the node indices below [n]. *)
Lemma db_init_topology (n : nat) (name path : str) (self : DbWrapper.t) :
  exists h ring,
    DbWrapper.db_init n name path self =
      (Return tt, DbWrapper.mk (Some h) (DbWrapper.dataset_key self), []) /\
    DbHandle.node_num h = n /\
    DbHandle.dbs h = (fun i => Some (persisted path i)) <$> seq 0 n /\
    DbHandle.ch h = Some ring /\
    virtual_replicas ring = 32 /\
    length (positions ring) = n * 32 /\
    Forall (fun p => p.2 < n) (positions ring).
Proof.
  rewrite db_init_handle. eexists _, _. split; [reflexivity|].
  destruct (add_nodes (fun p => p.2 < n) (seq 0 n) (create_consistent_hashing 32))
    as (Hv & Hlen & HP).
  - intros i r Hi. apply elem_of_seq in Hi. cbn. lia.
  - constructor.
  - cbn zeta in *. rewrite length_seq in Hlen. cbn [DbHandle.node_num DbHandle.dbs DbHandle.ch].
    repeat split; try done. rewrite Hlen. cbn. lia.
Qed.

Lemma db_init_ready (n : nat) (name path : str) (self : DbWrapper.t) :
  0 < n -> ready (state_of (DbWrapper.db_init n name path self)) = true.
Proof.
  intros Hn.
  destruct (db_init_topology n name path self)
    as (h & ring & -> & _ & Hdbs & Hch & _ & Hlen & Hown).
  unfold state_of, ready. cbn [fst snd DbWrapper.handle]. rewrite Hch.
  destruct (positions ring) as [|p0 l] eqn:Hpos; [cbn in Hlen; lia|].
  apply forallb_forall. intros p Hp%list_elem_of_In.
  rewrite Forall_forall in Hown. specialize (Hown p Hp).
  unfold open_node. rewrite Hdbs, list_lookup_fmap.
  by rewrite (lookup_seq_lt _ _ _ Hown).
Qed.

End Ring.

(** ** The singleton *)

Section Registry.
Context `{E : NodeEngine}.

Lemma new_run_first (p : DbWrapper.Process) :
  DbWrapper.__instance p = None ->
  DbWrapper.new p =
    (Return (length (DbWrapper.objects p)),
     DbWrapper.mkProcess (Some (length (DbWrapper.objects p)))
       (DbWrapper.objects p ++ [default_client]),
     []).
Proof.
  intros Hinst. destruct p as [inst objs]. cbn in Hinst. subst inst.
  unfold DbWrapper.new, DbWrapper.__init__, DbWrapper.on_object, bind,
    get_state, put_state, ret, raise.
  cbn [DbWrapper.objects DbWrapper.__instance].
  rewrite list_lookup_middle by done.
  rewrite insert_app_r_alt, Nat.sub_diag by done.
  cbn -[DbWrapper.db_init].
  rewrite list_lookup_middle by done.
  rewrite db_init_handle.
  rewrite insert_app_r_alt, Nat.sub_diag by done. reflexivity.
Qed.

Lemma new_run_again (p : DbWrapper.Process) (a : nat) :
  DbWrapper.__instance p = Some a ->
  DbWrapper.new p =
    (Raise (Exception "This class is a singleton!"),
     DbWrapper.mkProcess (Some a)
       (DbWrapper.objects p ++ [DbWrapper.mk None []]),
     []).
Proof.
  intros Hinst. destruct p as [inst objs]. cbn in Hinst. subst inst.
  unfold DbWrapper.new, DbWrapper.__init__, DbWrapper.on_object, bind,
    get_state, put_state, ret, raise.
  cbn [DbWrapper.objects DbWrapper.__instance].
  rewrite list_lookup_middle by done.
  rewrite insert_app_r_alt, Nat.sub_diag by done.
  reflexivity.
Qed.

Lemma get_instance_run_first (p : DbWrapper.Process) :
  DbWrapper.__instance p = None ->
  DbWrapper.get_instance p =
    (Return (Some (length (DbWrapper.objects p))),
     DbWrapper.mkProcess (Some (length (DbWrapper.objects p)))
       (DbWrapper.objects p ++ [default_client]),
     []).
Proof.
  intros Hinst. unfold DbWrapper.get_instance, bind, get_state, ret.
  rewrite Hinst. cbn [decide]. destruct (decide (None = None)); [|done].
  by rewrite new_run_first.
Qed.

Lemma get_instance_run_again (p : DbWrapper.Process) (a : nat) :
  DbWrapper.__instance p = Some a ->
  DbWrapper.get_instance p = (Return (Some a), p, []).
Proof.
  intros Hinst. unfold DbWrapper.get_instance, bind, get_state, ret.
  rewrite Hinst. destruct (decide (Some a = None)); [done|].
  by rewrite Hinst.
Qed.

Lemma default_client_initialised : initialised default_client.
Proof. unfold initialised, default_client. rewrite db_init_handle. by eexists. Qed.

Lemma singleton_first (p : DbWrapper.Process) :
  singleton p -> DbWrapper.__instance p = None ->
  singleton
    (DbWrapper.mkProcess (Some (length (DbWrapper.objects p)))
       (DbWrapper.objects p ++ [default_client])).
Proof.
  intros Hp Hinst a. cbn [DbWrapper.objects DbWrapper.__instance]. split.
  - intros (obj & [[_ Hobj]|[-> _]]%lookup_snoc_Some & Hinit); [|done].
    assert (DbWrapper.__instance p = Some a) as Ha by (apply Hp; eauto).
    congruence.
  - intros [= <-]. exists default_client. split.
    + by apply list_lookup_middle.
    + apply default_client_initialised.
Qed.

Lemma singleton_again (p : DbWrapper.Process) (a0 : nat) :
  singleton p -> DbWrapper.__instance p = Some a0 ->
  singleton
    (DbWrapper.mkProcess (Some a0) (DbWrapper.objects p ++ [DbWrapper.mk None []])).
Proof.
  intros Hp Hinst a. cbn [DbWrapper.objects DbWrapper.__instance]. split.
  - intros (obj & [[_ Hobj]|[_ <-]]%lookup_snoc_Some & Hinit).
    + rewrite <- Hinst. apply Hp. eauto.
    + by destruct Hinit.
  - intros [= <-]. apply Hp in Hinst as (obj & Hobj & Hinit).
    exists obj. split; [|done]. by apply lookup_app_l_Some.
Qed.

End Registry.

(** C4: in a process where the initialised objects of the class are exactly
    the registered one, (1) a first [get_instance] constructs a client of 4
    open nodes and a ring of 4 * 32 positions owned by them, registers it
    and returns it,
    and the next [get_instance] returns that same object and changes
    nothing; (2) once an object is registered, [get_instance] returns it
    and changes nothing, and the call [DbWrapper()] fails with the error of
    [__init__], AlreadyInitialized, leaving the registered object as it
    was; (3) both calls keep the initialised objects to exactly the
    registered one. *)
Theorem get_instance_singleton `{E : NodeEngine} (p : DbWrapper.Process) :
  singleton p ->
  (DbWrapper.__instance p = None ->
   let p' := state_of (DbWrapper.get_instance p) in
   exists a obj h ring,
     outcome_of (DbWrapper.get_instance p) = Return (Some a) /\
     DbWrapper.__instance p' = Some a /\
     DbWrapper.objects p' !! a = Some obj /\
     DbWrapper.handle obj = Some h /\
     DbWrapper.dataset_key obj = [] /\
     ready obj = true /\
     DbHandle.node_num h = 4 /\
     length (DbHandle.dbs h) = 4 /\
     Forall is_Some (DbHandle.dbs h) /\
     DbHandle.ch h = Some ring /\
     virtual_replicas ring = 32 /\
     length (positions ring) = 4 * 32 /\
     Forall (fun q => q.2 < 4) (positions ring) /\
     DbWrapper.get_instance p' = (Return (Some a), p', [])) /\
  (forall a, DbWrapper.__instance p = Some a ->
     DbWrapper.get_instance p = (Return (Some a), p, []) /\
     fails_with AlreadyInitialized (outcome_of (DbWrapper.new p)) /\
     DbWrapper.__instance (state_of (DbWrapper.new p)) = Some a /\
     DbWrapper.objects (state_of (DbWrapper.new p)) !! a = DbWrapper.objects p !! a) /\
  singleton (state_of (DbWrapper.get_instance p)) /\
  singleton (state_of (DbWrapper.new p)).
Proof.
  intros Hp. split; [|split; [|split]].
  - intros Hinst p'. subst p'. rewrite get_instance_run_first by done.
    unfold outcome_of, state_of. cbn [fst snd].
    destruct (db_init_topology 4 "rocksdb" "test_simple_dir/rocks/node"
                (DbWrapper.mk None []))
      as (h & ring & Hrun & Hn & Hdbs & Hch & Hv & Hlen & Hown).
    exists (length (DbWrapper.objects p)), default_client, h, ring.
    assert (default_client = DbWrapper.mk (Some h) []) as Hdc
      by (unfold default_client; by rewrite Hrun).
    assert (ready default_client = true) as Hready
      by (apply db_init_ready; lia).
    rewrite Hdc in Hready.
    cbn [DbWrapper.objects DbWrapper.__instance].
    rewrite !Hdc. cbn [DbWrapper.handle DbWrapper.dataset_key].
    repeat split; try done.
    + by apply list_lookup_middle.
    + by rewrite Hdbs, length_fmap, length_seq.
    + rewrite Hdbs. apply Forall_fmap, Forall_forall. by eexists.
  - intros a Hinst. rewrite (new_run_again p a) by done.
    unfold outcome_of, state_of. cbn [fst snd DbWrapper.objects DbWrapper.__instance].
    repeat split.
    + by apply get_instance_run_again.
    + by eexists.
    + apply (Hp a) in Hinst as (obj & Hobj & _).
      rewrite Hobj. by apply lookup_app_l_Some.
  - destruct (DbWrapper.__instance p) as [a|] eqn:Hinst.
    + by rewrite (get_instance_run_again p a).
    + rewrite get_instance_run_first by done. by apply singleton_first.
  - destruct (DbWrapper.__instance p) as [a|] eqn:Hinst.
    + rewrite (new_run_again p a) by done. by apply singleton_again.
    + rewrite new_run_first by done. by apply singleton_first.
Qed.

Lemma get_instance_singleton_witness :
  (DbWrapper.__instance fresh_process = None ->
   let p' := state_of (@DbWrapper.get_instance sample_engine fresh_process) in
   exists a obj h ring,
     outcome_of (@DbWrapper.get_instance sample_engine fresh_process) = Return (Some a) /\
     DbWrapper.__instance p' = Some a /\
     DbWrapper.objects p' !! a = Some obj /\
     DbWrapper.handle obj = Some h /\
     DbWrapper.dataset_key obj = [] /\
     ready obj = true /\
     DbHandle.node_num h = 4 /\
     length (DbHandle.dbs h) = 4 /\
     Forall is_Some (DbHandle.dbs h) /\
     DbHandle.ch h = Some ring /\
     virtual_replicas ring = 32 /\
     length (positions ring) = 4 * 32 /\
     Forall (fun q => q.2 < 4) (positions ring) /\
     @DbWrapper.get_instance sample_engine p' = (Return (Some a), p', [])) /\
  (forall a, DbWrapper.__instance fresh_process = Some a ->
     @DbWrapper.get_instance sample_engine fresh_process =
       (Return (Some a), fresh_process, []) /\
     fails_with AlreadyInitialized
       (outcome_of (@DbWrapper.new sample_engine fresh_process)) /\
     DbWrapper.__instance (state_of (@DbWrapper.new sample_engine fresh_process)) = Some a /\
     DbWrapper.objects (state_of (@DbWrapper.new sample_engine fresh_process)) !! a =
       DbWrapper.objects fresh_process !! a) /\
  singleton (state_of (@DbWrapper.get_instance sample_engine fresh_process)) /\
  singleton (state_of (@DbWrapper.new sample_engine fresh_process)).
Proof.
  apply (@get_instance_singleton sample_engine fresh_process).
  intros a. split.
  - intros (obj & Hobj & _). discriminate.
  - discriminate.
Defined.

(** * Further properties of the code *)

(** ** What the nodes hold after a put *)

Section Stored.
Context `{E : NodeEngine}.

Lemma ready_handle (h : DbHandle.t) (keys keys' : list str) :
  ready (DbWrapper.mk (Some h) keys) = ready (DbWrapper.mk (Some h) keys').
Proof. reflexivity. Qed.

Lemma target_lookup (h : DbHandle.t) (k : bytes) (idx : nat)
    (store : gmap bytes bytes) :
  target h k = inr (idx, store) -> DbHandle.dbs h !! idx = Some (Some store).
Proof.
  unfold target. destruct (DbHandle.ch h) as [ring|]; [|done].
  destruct (route ring k) as [e|i]; [done|].
  destruct (DbHandle.dbs h !! i) as [[st|]|] eqn:Hdb; try done.
  by intros [= <- <-].
Qed.

(** A put that the ring cannot route, or that reaches a closed node, leaves
    the handle as it was. *)
Lemma save_rejected_handle (h : DbHandle.t) (doc : Doc.t) (e : StorageError) :
  target h (sized_bytes (Doc.id doc)) = inl e ->
  couchstore_save_document_to_nodes h doc = (ERROR e, h).
Proof. intros Ht. unfold couchstore_save_document_to_nodes. by rewrite Ht. Qed.

(** After a put, the nodes hold the new payload under its id and what they
    held before under every other id. *)
Lemma stored_save (h : DbHandle.t) (doc : Doc.t) (idx : nat)
    (store : gmap bytes bytes) (k : bytes) :
  target h (sized_bytes (Doc.id doc)) = inr (idx, store) ->
  stored (couchstore_save_document_to_nodes h doc).2 k =
    if decide (k = sized_bytes (Doc.id doc)) then Some (sized_bytes (Doc.data doc))
    else stored h k.
Proof.
  intros Ht. destruct (decide (k = _)) as [->|Hne].
  - destruct (save_then_target h doc idx store Ht) as [_ Ht'].
    unfold stored. cbn zeta in Ht'. rewrite Ht'. apply lookup_insert_eq.
  - unfold stored, couchstore_save_document_to_nodes. rewrite Ht.
    cbn [snd]. unfold target in *. cbn [DbHandle.ch DbHandle.dbs].
    destruct (DbHandle.ch h) as [ring|]; [|done].
    destruct (route ring (sized_bytes (Doc.id doc))) as [e|i]; [discriminate|].
    destruct (DbHandle.dbs h !! i) as [[st|]|] eqn:Hdb; try discriminate.
    injection Ht as -> ->.
    destruct (route ring k) as [e|j]; [done|].
    destruct (decide (j = idx)) as [->|Hj].
    + rewrite list_lookup_insert_eq by (by eapply lookup_lt_Some).
      rewrite Hdb. by rewrite lookup_insert_ne.
    + by rewrite list_lookup_insert_ne.
Qed.

(** A put keeps the ring, and keeps open the nodes that were open. *)
Lemma ready_save (h : DbHandle.t) (doc : Doc.t) (keys : list str) :
  ready (DbWrapper.mk (Some h) keys) = true ->
  ready (DbWrapper.mk (Some (couchstore_save_document_to_nodes h doc).2) keys) = true.
Proof.
  intros Hready.
  destruct (target h (sized_bytes (Doc.id doc))) as [e|[idx store]] eqn:Ht.
  - by rewrite (save_rejected_handle h doc e).
  - unfold couchstore_save_document_to_nodes. rewrite Ht. cbn [snd].
    unfold ready in *. cbn [DbWrapper.handle DbHandle.ch DbHandle.dbs] in *.
    destruct (DbHandle.ch h) as [ring|]; [|done].
    destruct (positions ring) as [|p0 l]; [done|].
    rewrite forallb_forall in Hready. apply forallb_forall. intros p Hp.
    specialize (Hready p Hp). unfold open_node in *.
    cbn [DbHandle.dbs].
    apply target_lookup in Ht.
    destruct (decide (idx = p.2)) as [<-|Hne].
    + by rewrite list_lookup_insert_eq by (by eapply lookup_lt_Some).
    + by rewrite list_lookup_insert_ne.
Qed.

(** What [db_read] returns and appends is decided by what the nodes hold
    under the id it looks up. *)
Lemma db_read_stored (self : DbWrapper.t) (h : DbHandle.t) (uri : pyval)
    (dataset : list (option bytes)) :
  DbWrapper.handle self = Some h ->
  let r := DbWrapper.db_read self uri dataset in
  (outcome_of r, state_of r) =
    match stored h (read_id (fmt uri)) with
    | Some payload =>
        (Return (length payload), dataset ++ [Some (until_nul payload)])
    | None => (Raise (ValueError "NULL pointer access"), dataset)
    end.
Proof.
  intros Hh r. subst r. rewrite (db_read_run self h) by done. cbn zeta.
  unfold couchstore_open_document_from_nodes, stored.
  fold (read_id (fmt uri)).
  destruct (target h (read_id (fmt uri))) as [e|[idx store]]; [done|].
  destruct (store !! read_id (fmt uri)) as [payload|]; [|done].
  unfold outcome_of, state_of. cbn. by rewrite until_nul_terminated.
Qed.

End Stored.

(** ** Keys and the ids they are stored under *)

Lemma byte_of_N_ascii (c : ascii) : byte_of_N (N_of_ascii c) = byte_of_ascii c.
Proof. unfold byte_of_N. by rewrite <- byte_of_ascii_via_N. Qed.

Lemma encode_char_plain (c : ascii) :
  plain_char c = true ->
  encode_char c = [byte_of_ascii c] /\ byte_of_ascii c <> x00.
Proof.
  unfold plain_char, encode_char. cbn zeta.
  intros [Hpos Hlt]%andb_prop. rewrite Hlt, byte_of_N_ascii. split; [done|].
  intros Hz. apply (f_equal ascii_of_byte) in Hz.
  rewrite ascii_of_byte_of_ascii in Hz. subst c. discriminate.
Qed.

Lemma encode_utf8_plain (s : str) :
  plain s = true ->
  encode_utf8 s = byte_of_ascii <$> list_ascii_of_string s /\
  x00 ∉ encode_utf8 s.
Proof.
  induction s as [|c s IH]; cbn.
  - intros _. split; [done|]. apply not_elem_of_nil.
  - intros [Hc Hs]%andb_prop. destruct (encode_char_plain c Hc) as [-> Hnz].
    destruct (IH Hs) as [-> Hnot]. split; [done|].
    cbn. intros [Heq|Hin]%elem_of_cons; [by apply Hnz|].
    apply Hnot. by destruct (IH Hs) as [-> _].
Qed.

Lemma length_encode_char (c : ascii) : 1 <= length (encode_char c).
Proof. unfold encode_char. cbn zeta. destruct (_ <? _)%N; cbn; lia. Qed.

Lemma len_le_encode_utf8 (s : str) : len s <= length (encode_utf8 s).
Proof.
  unfold len. induction s as [|c s IH]; cbn; [done|].
  rewrite length_app. pose proof (length_encode_char c). lia.
Qed.

Lemma encode_utf8_app (s1 s2 : str) :
  encode_utf8 (s1 +:+ s2) = encode_utf8 s1 ++ encode_utf8 s2.
Proof.
  induction s1 as [|c s1 IH]; [done|].
  change (String c s1 +:+ s2) with (String c (s1 +:+ s2)).
  cbn [encode_utf8]. by rewrite IH, app_assoc.
Qed.

Lemma write_id_plain (key : str) :
  plain key = true ->
  write_id key = encode_utf8 key /\ read_id key = encode_utf8 key.
Proof.
  intros Hk. destruct (encode_utf8_plain key Hk) as [Henc Hnot].
  assert (write_id key = encode_utf8 key) as Hw.
  { unfold write_id, sized_bytes, c_char_p. cbn [SizedBuf.buf SizedBuf.size].
    assert (len key = length (encode_utf8 key)) as ->.
    { rewrite Henc, length_fmap. unfold len.
      clear. induction key; cbn; congruence. }
    apply take_app_length. }
  split; [done|]. by rewrite read_id_write_id.
Qed.

Lemma encode_utf8_plain_inj (s1 s2 : str) :
  plain s1 = true -> plain s2 = true -> encode_utf8 s1 = encode_utf8 s2 -> s1 = s2.
Proof.
  intros H1 H2 Heq.
  destruct (encode_utf8_plain s1 H1) as [E1 _].
  destruct (encode_utf8_plain s2 H2) as [E2 _].
  rewrite E1, E2 in Heq.
  apply (f_equal (fmap ascii_of_byte)) in Heq.
  rewrite <- !list_fmap_compose in Heq.
  rewrite !(list_fmap_ext (ascii_of_byte ∘ byte_of_ascii) id) in Heq
    by (intros; apply ascii_of_byte_of_ascii).
  rewrite !list_fmap_id in Heq.
  rewrite <- (string_of_list_ascii_of_string s1),
          <- (string_of_list_ascii_of_string s2). by rewrite Heq.
Qed.

(** X3: a key made of ASCII characters other than NUL is stored and looked
    up under its own UTF-8 octets, and two distinct such keys never share
    an id. *)
Theorem plain_keys_have_their_own_ids (key1 key2 : str) :
  plain key1 = true -> plain key2 = true ->
  write_id key1 = encode_utf8 key1 /\
  read_id key1 = write_id key1 /\
  (key1 <> key2 -> write_id key1 <> read_id key2).
Proof.
  intros H1 H2. destruct (write_id_plain key1 H1) as [Hw1 Hr1].
  destruct (write_id_plain key2 H2) as [Hw2 Hr2].
  split; [done|]. split; [congruence|].
  intros Hne Heq. apply Hne. rewrite Hw1, Hr2 in Heq.
  by apply encode_utf8_plain_inj.
Qed.

Lemma plain_keys_have_their_own_ids_witness :
  write_id "part1" = encode_utf8 "part1" /\
  read_id "part1" = write_id "part1" /\
  ("part1" <> "part2" -> write_id "part1" <> read_id "part2").
Proof.
  apply (plain_keys_have_their_own_ids "part1" "part2"); reflexivity.
Defined.

(** X4: the id of a key is cut to [len(key)] octets of its UTF-8 encoding,
    so two keys that differ only in a final non-ASCII character of the same
    lead octet are stored under the same id. *)
Theorem keys_ending_in_non_ascii_collide (s : str) (c1 c2 : ascii) :
  (128 <= N_of_ascii c1)%N -> (128 <= N_of_ascii c2)%N ->
  (N_of_ascii c1 / 64 = N_of_ascii c2 / 64)%N ->
  let key1 := s +:+ String c1 "" in
  let key2 := s +:+ String c2 "" in
  write_id key1 = write_id key2 /\
  length (write_id key1) = len key1 /\
  len key1 < length (encode_utf8 key1).
Proof.
  intros H1 H2 Hlead key1 key2.
  assert (forall c, (128 <= N_of_ascii c)%N ->
    encode_utf8 (s +:+ String c "") =
      (encode_utf8 s ++ [byte_of_N (192 + N_of_ascii c / 64)%N]) ++
      [byte_of_N (128 + N_of_ascii c mod 64)%N]) as Henc.
  { intros c Hc. rewrite encode_utf8_app. cbn. unfold encode_char. cbn zeta.
    assert ((N_of_ascii c <? 128)%N = false) as -> by by apply N.ltb_ge.
    by rewrite app_nil_r, <- app_assoc. }
  assert (forall c, len (s +:+ String c "") = len s + 1) as Hlen.
  { intros c. unfold len. clear. induction s as [|a s IH]; [done|].
    change (String a s +:+ String c "") with (String a (s +:+ String c "")).
    cbn [String.length]. by rewrite IH. }
  pose proof (len_le_encode_utf8 s) as Hs.
  assert (forall c, (128 <= N_of_ascii c)%N ->
    write_id (s +:+ String c "") =
      take (len s + 1) (encode_utf8 s ++ [byte_of_N (192 + N_of_ascii c / 64)%N]))
    as Hid.
  { intros c Hc. unfold write_id, sized_bytes, c_char_p.
    cbn [SizedBuf.buf SizedBuf.size]. rewrite Henc, Hlen by done.
    rewrite <- app_assoc. apply take_app_le. rewrite length_app. cbn. lia. }
  subst key1 key2. repeat split.
  - rewrite !Hid by done. by rewrite Hlead.
  - rewrite Hid, Hlen by done. rewrite length_take, length_app. cbn. lia.
  - rewrite Henc, Hlen by done. rewrite !length_app. cbn. lia.
Qed.

Lemma keys_ending_in_non_ascii_collide_witness :
  let key1 := "k" +:+ String (ascii_of_N 233) "" in
  let key2 := "k" +:+ String (ascii_of_N 234) "" in
  write_id key1 = write_id key2 /\
  length (write_id key1) = len key1 /\
  len key1 < length (encode_utf8 key1).
Proof.
  apply (keys_ending_in_non_ascii_collide "k" (ascii_of_N 233) (ascii_of_N 234));
    vm_compute; congruence.
Defined.

(** ** Writes and the documents of other keys *)

Lemma db_write_state `{E : NodeEngine} (self : DbWrapper.t) (h : DbHandle.t)
    (uri : pyval) (data : bytes) :
  DbWrapper.handle self = Some h ->
  exists h',
    state_of (DbWrapper.db_write uri data self) =
      DbWrapper.mk (Some h') (DbWrapper.dataset_key self ++ [fmt uri]) /\
    (forall k, stored h' k =
       match target h (write_id (fmt uri)) with
       | inr _ => if decide (k = write_id (fmt uri)) then Some data else stored h k
       | inl _ => stored h k
       end) /\
    (forall keys keys', ready (DbWrapper.mk (Some h) keys) = true ->
       ready (DbWrapper.mk (Some h') keys') = true).
Proof.
  intros Hh. rewrite (db_write_run self h) by done. cbn zeta.
  set (doc := Doc.mk _ _). eexists. split; [reflexivity|]. split.
  - intros k.
    change (write_id (fmt uri)) with (sized_bytes (Doc.id doc)).
    destruct (target h (sized_bytes (Doc.id doc))) as [e|[idx store]] eqn:Ht.
    + by rewrite (save_rejected_handle h doc e).
    + rewrite (stored_save h doc idx store) by done.
      assert (sized_bytes (Doc.data doc) = data) as ->
        by apply sized_bytes_c_char_p.
      done.
  - intros keys keys' Hready. by apply ready_save.
Qed.

(** X1: a [db_write] under one id leaves what [db_read] does for a key
    (without U+0000) of any other id as it was: it appends the same
    element, or raises the same exception. *)
Theorem db_write_keeps_other_documents `{E : NodeEngine}
    (self : DbWrapper.t) (uri1 uri2 : pyval) (data : bytes)
    (dataset : list (option bytes)) :
  x00 ∉ encode_utf8 (fmt uri1) ->
  write_id (fmt uri2) <> write_id (fmt uri1) ->
  let self' := state_of (DbWrapper.db_write uri2 data self) in
  let r := DbWrapper.db_read self uri1 dataset in
  let r' := DbWrapper.db_read self' uri1 dataset in
  state_of r' = state_of r /\
  (forall e, outcome_of r' = Raise e <-> outcome_of r = Raise e).
Proof.
  intros Hkey Hne self' r r'.
  assert (outcome_of r' = outcome_of r /\ state_of r' = state_of r) as [Ho Hs];
    [|by rewrite Ho].
  rewrite <- (read_id_write_id _ Hkey) in Hne.
  destruct (DbWrapper.handle self) as [h|] eqn:Hh.
  - destruct (db_write_state self h uri2 data Hh) as (h' & Hs & Hst & _).
    assert (DbWrapper.handle self' = Some h') as Hh'
      by (subst self'; by rewrite Hs).
    assert (stored h' (read_id (fmt uri1)) = stored h (read_id (fmt uri1))) as Heq.
    { rewrite Hst. destruct (target h _); [done|].
      destruct (decide _) as [Hk|]; [by symmetry in Hk|done]. }
    pose proof (db_read_stored self h uri1 dataset Hh) as Hr.
    pose proof (db_read_stored self' h' uri1 dataset Hh') as Hr'.
    cbn zeta in Hr, Hr'. rewrite Heq, <- Hr in Hr'.
    subst r r'. by injection Hr' as -> ->.
  - subst self' r r'. by rewrite db_write_uninitialised.
Qed.

Lemma db_write_keeps_other_documents_witness :
  let self' := state_of (@DbWrapper.db_write sample_engine (PyStr "b") [x61] sample_client) in
  let r := @DbWrapper.db_read sample_engine sample_client (PyStr "a") [] in
  let r' := @DbWrapper.db_read sample_engine self' (PyStr "a") [] in
  state_of r' = state_of r /\
  (forall e, outcome_of r' = Raise e <-> outcome_of r = Raise e).
Proof.
  apply (@db_write_keeps_other_documents sample_engine sample_client
           (PyStr "a") (PyStr "b") [x61] []).
  - vm_compute. intros Hin. repeat (apply elem_of_cons in Hin as [Hin|Hin]; [discriminate|]).
    by apply elem_of_nil in Hin.
  - vm_compute. discriminate.
Defined.

(** X2: on a ready client, the element [db_read] appends for a key without
    U+0000 is the payload of the latest [db_write] under the id of that key
    (up to its first NUL), whatever was written under that id before; and
    [dataset_key] records every write, so a key written twice is listed
    twice. *)
Theorem db_read_returns_latest_write `{E : NodeEngine}
    (self : DbWrapper.t) (uri1 uri2 uri : pyval) (data1 data2 : bytes)
    (dataset : list (option bytes)) :
  ready self = true ->
  x00 ∉ encode_utf8 (fmt uri) ->
  write_id (fmt uri2) = write_id (fmt uri) ->
  let self1 := state_of (DbWrapper.db_write uri1 data1 self) in
  let self2 := state_of (DbWrapper.db_write uri2 data2 self1) in
  let r := DbWrapper.db_read self2 uri dataset in
  DbWrapper.dataset_key self2 = DbWrapper.dataset_key self ++ [fmt uri1; fmt uri2] /\
  (exists n, outcome_of r = Return n) /\
  state_of r = dataset ++ [Some (until_nul data2)].
Proof.
  intros Hready Hkey Hid self1 self2 r.
  rewrite <- (read_id_write_id _ Hkey) in Hid.
  destruct (ready_initialised self Hready) as [h Hh].
  destruct (db_write_state self h uri1 data1 Hh) as (h1 & Hs1 & _ & Hr1).
  fold self1 in Hs1.
  assert (DbWrapper.handle self1 = Some h1) as Hh1 by by rewrite Hs1.
  assert (ready self1 = true) as Hready1.
  { rewrite Hs1. apply (Hr1 (DbWrapper.dataset_key self)).
    destruct self as [hd keys]. cbn in Hh. by subst hd. }
  destruct (db_write_state self1 h1 uri2 data2 Hh1) as (h2 & Hs2 & Hst2 & _).
  fold self2 in Hs2.
  assert (DbWrapper.handle self2 = Some h2) as Hh2 by by rewrite Hs2.
  split.
  - rewrite Hs2, Hs1. cbn. by rewrite <- app_assoc.
  - pose proof (db_read_stored self2 h2 uri dataset Hh2) as Hr.
    cbn zeta in Hr. fold r in Hr. rewrite Hst2 in Hr.
    destruct (target_ready self1 h1 (write_id (fmt uri2)) Hh1 Hready1)
      as (idx & store & Ht & _).
    rewrite Ht, <- Hid in Hr. destruct (decide _); [|done].
    split; [exists (length data2)|]; congruence.
Qed.

Lemma db_read_returns_latest_write_witness :
  let self1 := state_of (@DbWrapper.db_write sample_engine (PyStr "k") [x61] sample_client) in
  let self2 := state_of (@DbWrapper.db_write sample_engine (PyStr "k") [x62; x63] self1) in
  let r := @DbWrapper.db_read sample_engine self2 (PyStr "k") [] in
  DbWrapper.dataset_key self2 = DbWrapper.dataset_key sample_client ++ ["k"; "k"] /\
  (exists n, outcome_of r = Return n) /\
  state_of r = [] ++ [Some (until_nul [x62; x63])].
Proof.
  apply (@db_read_returns_latest_write sample_engine sample_client
           (PyStr "k") (PyStr "k") (PyStr "k") [x61] [x62; x63] []).
  - reflexivity.
  - vm_compute. intros Hin. repeat (apply elem_of_cons in Hin as [Hin|Hin]; [discriminate|]).
    by apply elem_of_nil in Hin.
  - reflexivity.
Defined.

(** ** Sequences of puts *)

Section SaveAll.
Context `{E : NodeEngine}.

Lemma stored_save_step (h : DbHandle.t) (doc : Doc.t) (k : bytes) :
  stored (couchstore_save_document_to_nodes h doc).2 k =
    match target h (sized_bytes (Doc.id doc)) with
    | inr _ =>
        if decide (k = sized_bytes (Doc.id doc))
        then Some (sized_bytes (Doc.data doc)) else stored h k
    | inl _ => stored h k
    end.
Proof.
  destruct (target h (sized_bytes (Doc.id doc))) as [e|[idx store]] eqn:Ht.
  - by rewrite (save_rejected_handle h doc e).
  - by apply (stored_save h doc idx store).
Qed.

Lemma save_all_ready (docs : list Doc.t) :
  forall h : DbHandle.t,
  ready (DbWrapper.mk (Some h) []) = true ->
  ready (DbWrapper.mk (Some (save_all h docs)) []) = true.
Proof.
  induction docs as [|doc docs IH]; intros h Hready; [done|].
  cbn [save_all foldl]. apply IH. by apply ready_save.
Qed.

(** Puts leave what is held under the ids they do not name. *)
Lemma save_all_other (docs : list Doc.t) (k : bytes) :
  forall h : DbHandle.t,
  k ∉ (fun doc => sized_bytes (Doc.id doc)) <$> docs ->
  stored (save_all h docs) k = stored h k.
Proof.
  induction docs as [|doc docs IH]; intros h Hk; [done|].
  cbn [save_all foldl]. apply not_elem_of_cons in Hk as [Hne Hk].
  fold (save_all (couchstore_save_document_to_nodes h doc).2 docs).
  rewrite IH by done. rewrite stored_save_step.
  destruct (target h _); [done|]. by destruct (decide _).
Qed.

(** On a ready handle, after puts under pairwise distinct ids every
    document is held under its id. *)
Lemma save_all_stored (docs : list Doc.t) :
  forall h : DbHandle.t,
  ready (DbWrapper.mk (Some h) []) = true ->
  NoDup ((fun doc => sized_bytes (Doc.id doc)) <$> docs) ->
  forall doc, doc ∈ docs ->
  stored (save_all h docs) (sized_bytes (Doc.id doc)) =
    Some (sized_bytes (Doc.data doc)).
Proof.
  induction docs as [|d docs IH]; intros h Hready Hnd doc Hin.
  - by apply elem_of_nil in Hin.
  - cbn [save_all foldl].
    fold (save_all (couchstore_save_document_to_nodes h d).2 docs).
    rewrite fmap_cons in Hnd. apply NoDup_cons in Hnd as [Hnotin Hnd].
    apply elem_of_cons in Hin as [->|Hin].
    + rewrite save_all_other by done. rewrite stored_save_step.
      destruct (target_ready (DbWrapper.mk (Some h) []) h
                  (sized_bytes (Doc.id d)) eq_refl Hready)
        as (idx & store & -> & _).
      by destruct (decide _).
    + apply IH; [by apply ready_save|done|done].
Qed.

(** The loop [for i in ...: save(doc(i))] of the wrapper is that sequence
    of puts. *)
Lemma for_each_save_all (docs : nat -> Doc.t) (l : list nat) :
  forall (self : DbWrapper.t) (h : DbHandle.t),
  DbWrapper.handle self = Some h ->
  state_of (for_each l (fun i => DbWrapper.save_document (docs i)) self) =
    DbWrapper.mk (Some (save_all h (docs <$> l))) (DbWrapper.dataset_key self).
Proof.
  induction l as [|i l IH]; intros self h Hh.
  - destruct self as [hd keys]. cbn in Hh. by subst hd.
  - cbn [for_each]. unfold bind. rewrite (save_document_run self h) by done.
    cbn zeta. set (self' := DbWrapper.mk _ _).
    specialize (IH self' _ eq_refl).
    destruct (for_each l _ self') as [[o s] j]. unfold state_of in *.
    cbn [fst snd] in *. by rewrite IH.
Qed.

End SaveAll.

(** ** The chunks of a checkpoint *)

Lemma plain_pretty_N_go (x : N) :
  forall s : str, plain s = true -> plain (pretty_N_go x s) = true.
Proof.
  induction (N.lt_wf_0 x) as [x _ IH]. intros s Hs.
  destruct (decide (x = 0)%N) as [->|Hx]; [done|].
  rewrite pretty_N_go_step by lia. apply IH.
  - apply N.div_lt; lia.
  - cbn [plain]. rewrite Hs, andb_true_r.
    unfold pretty_N_char. by repeat case_match.
Qed.

Lemma plain_pretty_nat (i : nat) : plain (pretty i) = true.
Proof.
  unfold pretty, pretty_nat, pretty, pretty_N.
  destruct (decide _); [done|]. by apply plain_pretty_N_go.
Qed.

Lemma plain_chunk_key (i : nat) : plain ("c" +:+ pretty i) = true.
Proof.
  change ("c" +:+ pretty i) with (String "c" (pretty i)).
  cbn [plain]. by rewrite plain_pretty_nat.
Qed.

Lemma chunk_key_inj (i j : nat) :
  write_id ("c" +:+ pretty i) = write_id ("c" +:+ pretty j) -> i = j.
Proof.
  destruct (write_id_plain _ (plain_chunk_key i)) as [-> _].
  destruct (write_id_plain _ (plain_chunk_key j)) as [-> _].
  intros Heq%encode_utf8_plain_inj; try apply plain_chunk_key.
  injection Heq as Heq. by apply (inj pretty).
Qed.

Lemma plain_substring (s : str) :
  plain s = true -> forall a n, plain (substring a n s) = true.
Proof.
  induction s as [|c s IH]; intros Hs a n.
  - by destruct a, n.
  - cbn [plain] in Hs. apply andb_prop in Hs as [Hc Hs].
    destruct a as [|a]; [destruct n as [|n]|]; cbn; [done| |by apply IH].
    by rewrite Hc, IH.
Qed.

Lemma append_cons (c : ascii) (s1 s2 : str) :
  String c s1 +:+ s2 = String c (s1 +:+ s2).
Proof. reflexivity. Qed.

Lemma substring_add (s : str) :
  forall a b, substring 0 (a + b) s = substring 0 a s +:+ substring a b s.
Proof.
  induction s as [|c s IH]; intros a b.
  - by destruct a, b.
  - destruct a as [|a]; cbn; [by destruct b|]. by rewrite IH, append_cons.
Qed.

Lemma substring_all (s : str) : substring 0 (String.length s) s = s.
Proof. induction s as [|c s IH]; cbn; [done|]. by rewrite IH. Qed.

Lemma append_empty_r (s : str) : s +:+ "" = s.
Proof. induction s as [|c s IH]; [done|]. by rewrite append_cons, IH. Qed.

Lemma append_assoc (s1 s2 s3 : str) : (s1 +:+ s2) +:+ s3 = s1 +:+ (s2 +:+ s3).
Proof. induction s1 as [|c s1 IH]; [done|]. by rewrite !append_cons, IH. Qed.

Lemma concat_str_snoc (l : list str) (s : str) :
  concat_str (l ++ [s]) = concat_str l +:+ s.
Proof.
  induction l as [|x l IH]; cbn.
  - apply append_empty_r.
  - fold (concat_str (l ++ [s])). fold (concat_str l).
    by rewrite IH, append_assoc.
Qed.

(** The slices the loop takes, put end to end, are the first [k * b]
    characters of the data. *)
Lemma slices_cover (data : str) (b k : nat) :
  concat_str ((fun i => slice data (i * b) ((i + 1) * b)) <$> seq 0 k) =
    substring 0 (k * b) data.
Proof.
  induction k as [|k IH].
  - cbn. by destruct data.
  - rewrite seq_S, fmap_app, fmap_cons, fmap_nil, concat_str_snoc, IH.
    unfold slice. cbn [Nat.add].
    replace ((k + 1) * b - k * b) with b by lia.
    replace (S k * b) with (k * b + b) by lia.
    by rewrite substring_add.
Qed.

Lemma encode_utf8_concat_str (l : list str) :
  encode_utf8 (concat_str l) = concat (encode_utf8 <$> l).
Proof.
  induction l as [|s l IH]; [done|]. cbn. fold (concat_str l).
  by rewrite encode_utf8_app, IH.
Qed.

(** The payload of a chunk of plain data is the UTF-8 encoding of its
    slice. *)
Lemma chunk_payload_plain (data : str) (i : nat) :
  plain data = true ->
  sized_bytes (Doc.data (DbWrapper.chunk_doc data i)) =
    encode_utf8 (slice data (i * DbWrapper.bs) ((i + 1) * DbWrapper.bs)).
Proof.
  intros Hd.
  change (sized_bytes (Doc.data (DbWrapper.chunk_doc data i)))
    with (write_id (slice data (i * DbWrapper.bs) ((i + 1) * DbWrapper.bs))).
  apply write_id_plain. by apply plain_substring.
Qed.

(** X5: for data of ASCII characters other than NUL, the payloads
    [db_checkpoint] hands to the nodes, put end to end in index order, are
    the first [len(data) // bs * bs] characters of the data; when
    [len(data)] is a multiple of [bs] that is the whole data. *)
Theorem db_checkpoint_chunks_cover_prefix `{E : NodeEngine}
    (self : DbWrapper.t) (uri : pyval) (data : str) :
  is_Some (DbWrapper.handle self) ->
  plain data = true ->
  let c := DbWrapper.db_checkpoint uri data self in
  concat (saved (journal_of c)).*2 =
    encode_utf8 (slice data 0 (len data / DbWrapper.bs * DbWrapper.bs)) /\
  (len data mod DbWrapper.bs = 0 ->
   concat (saved (journal_of c)).*2 = encode_utf8 data).
Proof.
  intros Hh Hd c. subst c. rewrite db_checkpoint_loop.
  destruct (checkpoint_loop data (seq 0 (len data / DbWrapper.bs)) self Hh)
    as [_ ->].
  rewrite <- list_fmap_compose.
  assert (concat ((snd ∘ (fun i =>
            (sized_bytes (Doc.id (DbWrapper.chunk_doc data i)),
             sized_bytes (Doc.data (DbWrapper.chunk_doc data i))))) <$>
            seq 0 (len data / DbWrapper.bs)) =
          encode_utf8 (slice data 0 (len data / DbWrapper.bs * DbWrapper.bs)))
    as Hcat.
  { unfold slice at 1. rewrite Nat.sub_0_r, <- slices_cover, encode_utf8_concat_str.
    rewrite <- list_fmap_compose. f_equal. apply list_fmap_ext.
    intros _ i _. cbn. by apply chunk_payload_plain. }
  split; [done|]. intros Hmod. rewrite Hcat. f_equal.
  unfold slice. rewrite Nat.sub_0_r.
  assert (len data / DbWrapper.bs * DbWrapper.bs = String.length data) as ->.
  { pose proof (Nat.div_mod_eq (len data) DbWrapper.bs). unfold len in *. lia. }
  apply substring_all.
Qed.

Lemma db_checkpoint_chunks_cover_prefix_witness :
  let c := @DbWrapper.db_checkpoint sample_engine (PyStr "u") one_chunk sample_client in
  concat (saved (journal_of c)).*2 =
    encode_utf8 (slice one_chunk 0 (len one_chunk / DbWrapper.bs * DbWrapper.bs)) /\
  (len one_chunk mod DbWrapper.bs = 0 ->
   concat (saved (journal_of c)).*2 = encode_utf8 one_chunk).
Proof.
  apply (@db_checkpoint_chunks_cover_prefix sample_engine sample_client
           (PyStr "u") one_chunk).
  - vm_compute. eexists. reflexivity.
  - vm_compute. reflexivity.
Defined.

Lemma chunk_ids_NoDup (data : str) (k : nat) :
  NoDup ((fun doc => sized_bytes (Doc.id doc)) <$> (DbWrapper.chunk_doc data <$> seq 0 k)).
Proof.
  rewrite <- list_fmap_compose. apply NoDup_fmap_2_strong; [|apply NoDup_seq].
  intros i j _ _ Heq. by apply chunk_key_inj.
Qed.

(** X6: on a ready client and for data of ASCII characters other than NUL,
    every chunk that [db_checkpoint] emits can be read back whole:
    [db_read("c<i>")] returns normally and appends the octets of the i-th
    slice of the data. *)
Theorem db_checkpoint_chunks_read_back `{E : NodeEngine}
    (self : DbWrapper.t) (uri : pyval) (data : str) (i : nat)
    (dataset : list (option bytes)) :
  ready self = true ->
  plain data = true ->
  i < len data / DbWrapper.bs ->
  let self' := state_of (DbWrapper.db_checkpoint uri data self) in
  let r := DbWrapper.db_read self' (PyStr ("c" +:+ pretty i)) dataset in
  (exists n, outcome_of r = Return n) /\
  state_of r =
    dataset ++
    [Some (encode_utf8 (slice data (i * DbWrapper.bs) ((i + 1) * DbWrapper.bs)))].
Proof.
  intros Hready Hd Hi self' r.
  destruct (ready_initialised self Hready) as [h Hh].
  assert (self' = DbWrapper.mk
            (Some (save_all h (DbWrapper.chunk_doc data <$> seq 0 (len data / DbWrapper.bs))))
            (DbWrapper.dataset_key self)) as Hs.
  { subst self'. rewrite db_checkpoint_loop. by apply for_each_save_all. }
  set (h' := save_all _ _) in Hs.
  assert (stored h' (read_id ("c" +:+ pretty i)) =
          Some (encode_utf8 (slice data (i * DbWrapper.bs) ((i + 1) * DbWrapper.bs))))
    as Hst.
  { destruct (write_id_plain _ (plain_chunk_key i)) as [Hw Hr].
    rewrite Hr, <- Hw, <- chunk_payload_plain by done.
    change (write_id ("c" +:+ pretty i))
      with (sized_bytes (Doc.id (DbWrapper.chunk_doc data i))).
    subst h'. apply (save_all_stored _ h).
    - destruct self as [hd keys]. cbn in Hh. by subst hd.
    - apply chunk_ids_NoDup.
    - apply list_elem_of_fmap. exists i. split; [done|].
      apply elem_of_seq. lia. }
  pose proof (db_read_stored self' h' (PyStr ("c" +:+ pretty i)) dataset) as Hrd.
  cbn zeta in Hrd. fold r in Hrd. cbn [fmt] in Hrd. rewrite Hst in Hrd.
  specialize (Hrd ltac:(by rewrite Hs)).
  injection Hrd as -> ->.
  assert (plain (slice data (i * DbWrapper.bs) ((i + 1) * DbWrapper.bs)) = true)
    as Hp by by apply plain_substring.
  destruct (encode_utf8_plain _ Hp) as [_ Hnot].
  rewrite until_nul_id by done. split; [by eexists|done].
Qed.

Lemma db_checkpoint_chunks_read_back_witness :
  let self' := state_of (@DbWrapper.db_checkpoint sample_engine (PyStr "u") one_chunk sample_client) in
  let r := @DbWrapper.db_read sample_engine self' (PyStr ("c" +:+ pretty 0)) [] in
  (exists n, outcome_of r = Return n) /\
  state_of r =
    [] ++ [Some (encode_utf8 (slice one_chunk (0 * DbWrapper.bs) ((0 + 1) * DbWrapper.bs)))].
Proof.
  apply (@db_checkpoint_chunks_read_back sample_engine sample_client
           (PyStr "u") one_chunk 0 []).
  - vm_compute. reflexivity.
  - vm_compute. reflexivity.
  - apply Nat.ltb_lt. vm_compute. reflexivity.
Defined.

(** ** The reader *)

Section Reader.
Context `{E : NodeEngine}.

(** [db_read] raises nothing but the two exceptions of [ctypes]. *)
Lemma db_read_raises (self : DbWrapper.t) (uri : pyval)
    (dataset : list (option bytes)) (e : exn) :
  outcome_of (DbWrapper.db_read self uri dataset) = Raise e ->
  e = ValueError "NULL pointer access" \/
  e = TypeError "byref() argument must be a ctypes instance, not 'NoneType'".
Proof.
  destruct (DbWrapper.handle self) as [h|] eqn:Hh.
  - rewrite (db_read_run self h) by done. cbn zeta.
    destruct (couchstore_open_document_from_nodes _ _ _) as [st [d|]];
      unfold outcome_of; cbn; [done|]. intros [= <-]. by left.
  - unfold DbWrapper.db_read. rewrite Hh. unfold outcome_of. cbn.
    intros [= <-]. by right.
Qed.

Lemma fetch_raises (db : DbWrapper.t) (keys : list str) :
  forall (total : nat) (dataset : list (option bytes)) (e : exn),
  outcome_of (DBReader.fetch db keys total dataset) = Raise e ->
  e = ValueError "NULL pointer access" \/
  e = TypeError "byref() argument must be a ctypes instance, not 'NoneType'".
Proof.
  induction keys as [|key keys IH]; intros total dataset e; [done|].
  cbn [DBReader.fetch]. unfold bind.
  pose proof (db_read_raises db (PyStr key) dataset) as Hfirst.
  destruct (DbWrapper.db_read db (PyStr key) dataset) as [[[n|e'] s] j].
  - specialize (IH (total + n) s e).
    destruct (DBReader.fetch db keys (total + n) s) as [[o s'] j'].
    unfold outcome_of in *. cbn in *. done.
  - unfold outcome_of in *. cbn in *. intros [= <-]. by apply Hfirst.
Qed.

(** When every key is held by the nodes, the loop of the reader returns the
    sum of the recorded lengths and appends one element per key. *)
Lemma fetch_all_found (db : DbWrapper.t) (h : DbHandle.t) (keys : list str) :
  DbWrapper.handle db = Some h ->
  forall (payloads : list bytes) (total : nat) (dataset : list (option bytes)),
  Forall2 (fun key payload => stored h (read_id key) = Some payload) keys payloads ->
  let r := DBReader.fetch db keys total dataset in
  outcome_of r = Return (total + sum_list (length <$> payloads)) /\
  state_of r = dataset ++ (Some ∘ until_nul <$> payloads).
Proof.
  intros Hh payloads total dataset Hall. revert total dataset.
  induction Hall as [|key payload keys payloads Hkey Hall IH]; intros total dataset.
  - cbn. unfold outcome_of, state_of. cbn. split; [f_equal; lia|by rewrite app_nil_r].
  - cbn zeta. cbn [DBReader.fetch]. unfold bind.
    pose proof (db_read_stored db h (PyStr key) dataset Hh) as Hr.
    cbn zeta in Hr. cbn [fmt] in Hr. rewrite Hkey in Hr.
    destruct (DbWrapper.db_read db (PyStr key) dataset) as [[o s] j].
    unfold outcome_of, state_of in Hr. cbn [fst snd] in Hr. injection Hr as -> ->.
    specialize (IH (total + length payload) (dataset ++ [Some (until_nul payload)])).
    cbn zeta in IH.
    destruct (DBReader.fetch db keys _ _) as [[o s] j'].
    unfold outcome_of, state_of in *. cbn [fst snd] in *.
    destruct IH as [-> ->]. split.
    + f_equal. cbn. lia.
    + cbn. by rewrite <- app_assoc.
Qed.

(** As soon as one key is held by no node, the loop raises. *)
Lemma fetch_missing (db : DbWrapper.t) (h : DbHandle.t) (keys : list str) :
  DbWrapper.handle db = Some h ->
  Exists (fun key => stored h (read_id key) = None) keys ->
  forall (total : nat) (dataset : list (option bytes)),
  outcome_of (DBReader.fetch db keys total dataset) =
    Raise (ValueError "NULL pointer access").
Proof.
  intros Hh. induction keys as [|key keys IH]; intros Hex total dataset.
  - by apply Exists_nil in Hex.
  - cbn [DBReader.fetch]. unfold bind.
    pose proof (db_read_stored db h (PyStr key) dataset Hh) as Hr.
    cbn zeta in Hr. cbn [fmt] in Hr.
    destruct (stored h (read_id key)) as [payload|] eqn:Hst.
    + apply Exists_cons in Hex as [Hex|Hex]; [congruence|].
      destruct (DbWrapper.db_read db (PyStr key) dataset) as [[o s] j].
      unfold outcome_of, state_of in Hr. cbn [fst snd] in Hr. injection Hr as -> ->.
      specialize (IH Hex (total + length payload) (dataset ++ [Some (until_nul payload)])).
      destruct (DBReader.fetch db keys _ _) as [[o s] j'].
      unfold outcome_of in *. by cbn in *.
    + destruct (DbWrapper.db_read db (PyStr key) dataset) as [[o s] j].
      unfold outcome_of, state_of in *. cbn [fst snd] in *. by injection Hr as -> ->.
Qed.

Lemma omap_Some_fmap {A} (l : list A) :
  omap (fun element : option A => element) (Some <$> l) = l.
Proof. induction l as [|x l IH]; cbn; [done|]. by rewrite IH. Qed.

End Reader.

(** For keys without U+0000 the id of a lookup is the id of the write. *)
Lemma stored_read_ids `{E : NodeEngine} (h : DbHandle.t) (keys : list str)
    (payloads : list bytes) :
  Forall (fun key => x00 ∉ encode_utf8 key) keys ->
  Forall2 (fun key payload => stored h (write_id key) = Some payload) keys payloads ->
  Forall2 (fun key payload => stored h (read_id key) = Some payload) keys payloads.
Proof.
  intros Hkeys Hall. induction Hall as [|key payload keys payloads Hkey Hall IH].
  - constructor.
  - apply Forall_cons in Hkeys as [Hk Hkeys]. constructor; [|by apply IH].
    by rewrite read_id_write_id.
Qed.

(** X8: lines 52-59 of [DBReader.read] never raise the "Error reading from
    database" of line 59: the [None] elements are filtered out (line 56)
    before the check (line 58) that would raise it. Whatever these lines
    raise is an exception of [ctypes] coming out of [db_read]. *)
Theorem DBReader_read_never_reports_read_error `{E : NodeEngine}
    (db : DbWrapper.t) (e : exn) :
  (DBReader.fetched_dataset db).1 = Raise e ->
  e <> ValueError "Error reading from database" /\
  (e = ValueError "NULL pointer access" \/
   e = TypeError "byref() argument must be a ctypes instance, not 'NoneType'").
Proof.
  unfold DBReader.fetched_dataset.
  pose proof (fetch_raises db (DbWrapper.dataset_key db) 0 []) as Hf.
  destruct (DBReader.fetch db _ 0 []) as [[[total|e'] s] j];
    unfold outcome_of in Hf; cbn [fst snd] in *.
  - destruct (decide _) as [Hin|_]; [|done].
    apply list_elem_of_fmap in Hin as (x & Hx & _). discriminate.
  - intros [= <-]. destruct (Hf e' eq_refl) as [->| ->]; split; auto; discriminate.
Qed.

Lemma DBReader_read_never_reports_read_error_witness :
  ValueError "NULL pointer access" <> ValueError "Error reading from database" /\
  (ValueError "NULL pointer access" = ValueError "NULL pointer access" \/
   ValueError "NULL pointer access" =
     TypeError "byref() argument must be a ctypes instance, not 'NoneType'").
Proof.
  apply (@DBReader_read_never_reports_read_error sample_engine
           (state_of (@DbWrapper.db_write sample_engine (PyStr "k") [x61] closed_client))).
  vm_compute. reflexivity.
Defined.

(** X9: when the keys of [dataset_key] hold no U+0000 and the nodes hold a
    payload under each of them, lines 52-59 of [DBReader.read] leave in
    [dataset] one element per key, in the order of [dataset_key], each the
    payload up to its first NUL. *)
Theorem DBReader_read_all_found `{E : NodeEngine}
    (db : DbWrapper.t) (h : DbHandle.t) (payloads : list bytes) :
  DbWrapper.handle db = Some h ->
  Forall (fun key => x00 ∉ encode_utf8 key) (DbWrapper.dataset_key db) ->
  Forall2 (fun key payload => stored h (write_id key) = Some payload)
    (DbWrapper.dataset_key db) payloads ->
  elements (DBReader.fetched_dataset db).1 = Return (until_nul <$> payloads).
Proof.
  intros Hh Hkeys Hall. apply stored_read_ids in Hall; [|done].
  unfold DBReader.fetched_dataset.
  destruct (fetch_all_found db h _ Hh payloads 0 [] Hall) as [Ho Hs].
  destruct (DBReader.fetch db _ 0 []) as [[o s] j].
  unfold outcome_of, state_of in *. cbn [fst snd] in *. subst o s.
  cbn [app]. rewrite list_fmap_compose, omap_Some_fmap.
  destruct (decide _) as [Hin|_]; [|done].
  apply list_elem_of_fmap in Hin as (x & Hx & _). discriminate.
Qed.

Lemma DBReader_read_all_found_witness :
  elements
    (@DBReader.fetched_dataset sample_engine
       (state_of (@DbWrapper.db_write sample_engine (PyStr "k") [x61; x00; x62] sample_client))).1 =
    Return (until_nul <$> [[x61; x00; x62]]).
Proof.
  set (db := state_of (@DbWrapper.db_write sample_engine (PyStr "k") [x61; x00; x62] sample_client)).
  apply (@DBReader_read_all_found sample_engine db
           (default (DbHandle.mk [] None 0) (DbWrapper.handle db))).
  - vm_compute. reflexivity.
  - constructor; [|constructor].
    vm_compute. intros Hin. repeat (apply elem_of_cons in Hin as [Hin|Hin]; [discriminate|]).
    by apply elem_of_nil in Hin.
  - constructor; [vm_compute; reflexivity|constructor].
Defined.

(** X10: when the keys of [dataset_key] hold no U+0000 and one of them is
    held by no node of an initialised client, lines 52-59 of
    [DBReader.read] raise the [ValueError] of the NULL pointer access:
    no element is left for the lines after them. *)
Theorem DBReader_read_missing_key_aborts `{E : NodeEngine}
    (db : DbWrapper.t) (h : DbHandle.t) :
  DbWrapper.handle db = Some h ->
  Forall (fun key => x00 ∉ encode_utf8 key) (DbWrapper.dataset_key db) ->
  Exists (fun key => stored h (write_id key) = None) (DbWrapper.dataset_key db) ->
  (DBReader.fetched_dataset db).1 = Raise (ValueError "NULL pointer access").
Proof.
  intros Hh Hkeys Hex. unfold DBReader.fetched_dataset.
  assert (Exists (fun key => stored h (read_id key) = None) (DbWrapper.dataset_key db))
    as Hex'.
  { apply Exists_exists in Hex as (key & Hin & Hnone). apply Exists_exists.
    exists key. split; [done|]. rewrite Forall_forall in Hkeys.
    by rewrite read_id_write_id by by apply Hkeys. }
  pose proof (fetch_missing db h _ Hh Hex' 0 []) as Hf.
  destruct (DBReader.fetch db _ 0 []) as [[o s] j].
  unfold outcome_of in Hf. cbn [fst snd] in Hf. by subst o.
Qed.

Lemma DBReader_read_missing_key_aborts_witness :
  (@DBReader.fetched_dataset sample_engine
     (state_of (@DbWrapper.db_write sample_engine (PyStr "k") [x61] closed_client))).1 =
    Raise (ValueError "NULL pointer access").
Proof.
  set (db := state_of (@DbWrapper.db_write sample_engine (PyStr "k") [x61] closed_client)).
  apply (@DBReader_read_missing_key_aborts sample_engine db
           (default (DbHandle.mk [] None 0) (DbWrapper.handle db))).
  - vm_compute. reflexivity.
  - constructor; [|constructor].
    vm_compute. intros Hin. repeat (apply elem_of_cons in Hin as [Hin|Hin]; [discriminate|]).
    by apply elem_of_nil in Hin.
  - constructor. vm_compute. reflexivity.
Defined.

(** ** Checkpoints, one after the other and before the reader *)

Lemma db_checkpoint_state `{E : NodeEngine} (self : DbWrapper.t) (h : DbHandle.t)
    (uri : pyval) (data : str) :
  DbWrapper.handle self = Some h ->
  state_of (DbWrapper.db_checkpoint uri data self) =
    DbWrapper.mk
      (Some (save_all h (DbWrapper.chunk_doc data <$> seq 0 (len data / DbWrapper.bs))))
      (DbWrapper.dataset_key self).
Proof. intros Hh. rewrite db_checkpoint_loop. by apply for_each_save_all. Qed.




(** C8, as the code has it: the key of a chunk is ["c"] followed by the
    decimal chunk index and nothing else; [uri] takes no part in it, so the
    checkpoints of the same data under any two uris hand the same keys to
    the nodes. On a client whose ring routes to open nodes the chunks are
    stored under these keys, and after a later checkpoint, under another
    uri and of other data, each key that checkpoint uses holds its chunk,
    whatever the earlier checkpoint had stored there. *)
Theorem db_checkpoint_keys_ignore_uri `{E : NodeEngine}
    (self : DbWrapper.t) (uri1 uri2 : pyval) (data data' : str) (i : nat) :
  ready self = true ->
  i < len data' / DbWrapper.bs ->
  let keys uri := (saved (journal_of (DbWrapper.db_checkpoint uri data self))).*1 in
  let self1 := state_of (DbWrapper.db_checkpoint uri1 data self) in
  let self2 := state_of (DbWrapper.db_checkpoint uri2 data' self1) in
  keys uri1 =
    (fun i => write_id ("c" +:+ pretty i)) <$> seq 0 (len data / DbWrapper.bs) /\
  keys uri2 = keys uri1 /\
  (forall j h1, j < len data / DbWrapper.bs -> DbWrapper.handle self1 = Some h1 ->
     stored h1 (write_id ("c" +:+ pretty j)) =
       Some (sized_bytes (Doc.data (DbWrapper.chunk_doc data j)))) /\
  (exists h2, DbWrapper.handle self2 = Some h2 /\
     stored h2 (write_id ("c" +:+ pretty i)) =
       Some (sized_bytes (Doc.data (DbWrapper.chunk_doc data' i)))).
Proof.
  intros Hready Hi keys self1 self2.
  destruct (ready_initialised self Hready) as [h Hh].
  assert (ready (DbWrapper.mk (Some h) []) = true) as Hrh.
  { destruct self as [hd ks]. cbn in Hh. by subst hd. }
  assert (forall (g : DbHandle.t) (text : str) (k : nat),
            ready (DbWrapper.mk (Some g) []) = true -> k < len text / DbWrapper.bs ->
            stored (save_all g (DbWrapper.chunk_doc text <$> seq 0 (len text / DbWrapper.bs)))
              (write_id ("c" +:+ pretty k)) =
              Some (sized_bytes (Doc.data (DbWrapper.chunk_doc text k)))) as Hstored.
  { intros g text k Hg Hk.
    change (write_id ("c" +:+ pretty k))
      with (sized_bytes (Doc.id (DbWrapper.chunk_doc text k))).
    apply save_all_stored; [done|apply chunk_ids_NoDup|].
    apply list_elem_of_fmap. exists k. split; [done|]. apply elem_of_seq. lia. }
  pose proof (db_checkpoint_state self h uri1 data Hh) as Hs1. fold self1 in Hs1.
  set (h1 := save_all h _) in Hs1.
  pose proof (db_checkpoint_state self1 h1 uri2 data' ltac:(by rewrite Hs1)) as Hs2.
  fold self2 in Hs2.
  split; [|split; [|split]].
  - subst keys. cbn beta. rewrite db_checkpoint_loop.
    destruct (checkpoint_loop data (seq 0 (len data / DbWrapper.bs)) self)
      as [_ ->]; [by eexists|].
    by rewrite <- list_fmap_compose.
  - subst keys. cbn beta. by rewrite !db_checkpoint_loop.
  - intros j g Hj Hg. rewrite Hs1 in Hg. injection Hg as <-. by apply Hstored.
  - eexists. split; [by rewrite Hs2|]. apply Hstored; [|done].
    by apply save_all_ready.
Qed.

Lemma db_checkpoint_keys_ignore_uri_witness :
  let keys uri :=
    (saved (journal_of (@DbWrapper.db_checkpoint sample_engine uri one_chunk sample_client))).*1 in
  let self1 :=
    state_of (@DbWrapper.db_checkpoint sample_engine (PyStr "a") one_chunk sample_client) in
  let self2 :=
    state_of (@DbWrapper.db_checkpoint sample_engine (PyStr "b")
                (String "b" one_chunk) self1) in
  keys (PyStr "a") =
    (fun i => write_id ("c" +:+ pretty i)) <$> seq 0 (len one_chunk / DbWrapper.bs) /\
  keys (PyStr "b") = keys (PyStr "a") /\
  (forall j h1, j < len one_chunk / DbWrapper.bs -> DbWrapper.handle self1 = Some h1 ->
     @stored sample_engine h1 (write_id ("c" +:+ pretty j)) =
       Some (sized_bytes (Doc.data (DbWrapper.chunk_doc one_chunk j)))) /\
  (exists h2, DbWrapper.handle self2 = Some h2 /\
     @stored sample_engine h2 (write_id ("c" +:+ pretty 0)) =
       Some (sized_bytes (Doc.data (DbWrapper.chunk_doc (String "b" one_chunk) 0)))).
Proof.
  apply (@db_checkpoint_keys_ignore_uri sample_engine sample_client
           (PyStr "a") (PyStr "b") one_chunk (String "b" one_chunk) 0).
  - vm_compute. reflexivity.
  - apply Nat.ltb_lt. vm_compute. reflexivity.
Defined.




(** ** From the writes of the generator to the reader *)

Lemma bind_Return {S A B} (m : Py S A) (k : A -> Py S B) (s s' : S) (a : A)
    (j : list event) :
  m s = (Return a, s', j) ->
  bind m k s = (outcome_of (k a s'), state_of (k a s'), j ++ journal_of (k a s')).
Proof.
  intros Hm. unfold bind. rewrite Hm. by destruct (k a s') as [[o s''] j'].
Qed.

Lemma write_all_state `{E : NodeEngine} (ws : list (pyval * bytes)) :
  forall (self : DbWrapper.t) (h : DbHandle.t),
  DbWrapper.handle self = Some h ->
  ready self = true ->
  exists h',
    state_of (write_all ws self) =
      DbWrapper.mk (Some h') (DbWrapper.dataset_key self ++ (fmt ∘ fst <$> ws)) /\
    outcome_of (write_all ws self) = Return tt /\
    (forall k, k ∉ (write_id ∘ fmt ∘ fst <$> ws) -> stored h' k = stored h k) /\
    (NoDup (write_id ∘ fmt ∘ fst <$> ws) ->
     forall w, w ∈ ws -> stored h' (write_id (fmt w.1)) = Some w.2).
Proof.
  induction ws as [|[uri data] ws IH]; intros self h Hh Hready.
  - exists h. destruct self as [hd keys]. cbn in Hh. subst hd.
    unfold write_all, outcome_of, state_of. cbn. rewrite app_nil_r.
    repeat split; try done. intros _ w Hw. by apply elem_of_nil in Hw.
  - destruct (db_write_state self h uri data Hh) as (h1 & Hs1 & Hst1 & Hr1).
    pose proof (db_write_run self h uri data Hh) as Hrun. cbn zeta in Hrun.
    set (self1 := state_of (DbWrapper.db_write uri data self)) in *.
    assert (DbWrapper.handle self1 = Some h1) as Hh1 by by rewrite Hs1.
    assert (ready self1 = true) as Hready1.
    { rewrite Hs1. apply (Hr1 (DbWrapper.dataset_key self)).
      destruct self as [hd keys]. cbn in Hh. by subst hd. }
    destruct (IH self1 h1 Hh1 Hready1) as (h' & Hrest & Ho & Hother & Hin).
    destruct (target_ready self h (write_id (fmt uri)) Hh Hready)
      as (idx & store & Ht & _).
    setoid_rewrite Ht in Hst1.
    assert (outcome_of (write_all ((uri, data) :: ws) self) =
              outcome_of (write_all ws self1) /\
            state_of (write_all ((uri, data) :: ws) self) =
              state_of (write_all ws self1)) as [Hco Hcs].
    { unfold write_all at 1 3. cbn [for_each fst snd].
      erewrite bind_Return by exact Hrun.
      fold (write_all ws). unfold self1. rewrite Hrun.
      by unfold outcome_of, state_of. }
    exists h'. rewrite Hco, Hcs, Ho, Hrest, Hs1. cbn [DbWrapper.dataset_key].
    rewrite <- app_assoc.
    repeat split; try done.
    + intros k Hk. rewrite fmap_cons in Hk. apply not_elem_of_cons in Hk as [Hne Hk].
      rewrite Hother by done. rewrite Hst1. by destruct (decide _).
    + intros Hnd w Hw. rewrite fmap_cons in Hnd. apply NoDup_cons in Hnd as [Hnotin Hnd].
      apply elem_of_cons in Hw as [->|Hw]; [|by apply Hin].
      cbn [fst snd compose] in *. rewrite Hother by done. rewrite Hst1.
      by destruct (decide _).
Qed.

(** X11: on a ready client whose [dataset_key] is empty, after a run of
    [db_write] calls under pairwise distinct keys of ASCII characters other
    than NUL, lines 52-59 of [DBReader.read] leave in [dataset] one element
    per write, in write order, each the payload written up to its first
    NUL. *)
Theorem DBReader_read_after_writes `{E : NodeEngine}
    (self : DbWrapper.t) (ws : list (pyval * bytes)) :
  ready self = true ->
  DbWrapper.dataset_key self = [] ->
  NoDup (fmt ∘ fst <$> ws) ->
  Forall (fun w => plain (fmt w.1) = true) ws ->
  let run := write_all ws self in
  outcome_of run = Return tt /\
  elements (DBReader.fetched_dataset (state_of run)).1 =
    Return (until_nul ∘ snd <$> ws).
Proof.
  intros Hready Hkeys Hnd Hplain run.
  destruct (ready_initialised self Hready) as [h Hh].
  destruct (write_all_state ws self h Hh Hready) as (h' & Hrun & Ho & _ & Hin).
  fold run in Hrun, Ho. split; [done|].
  assert (NoDup (write_id ∘ fmt ∘ fst <$> ws)) as Hids.
  { assert (write_id ∘ fmt ∘ fst <$> ws = write_id <$> (fmt ∘ fst <$> ws)) as ->
      by (by rewrite <- list_fmap_compose).
    apply NoDup_fmap_2_strong; [|done].
    intros k1 k2 [w1 [-> Hw1]]%list_elem_of_fmap [w2 [-> Hw2]]%list_elem_of_fmap Heq.
    rewrite Forall_forall in Hplain.
    destruct (write_id_plain _ (Hplain w1 Hw1)) as [Hw _].
    destruct (write_id_plain _ (Hplain w2 Hw2)) as [Hw' _].
    cbn [compose] in *. rewrite Hw, Hw' in Heq.
    apply encode_utf8_plain_inj in Heq; auto. }
  assert (state_of run =
          DbWrapper.mk (Some h') (fmt ∘ fst <$> ws)) as Hs.
  { rewrite Hrun. by rewrite Hkeys. }
  rewrite Hs. unfold DBReader.fetched_dataset. cbn [DbWrapper.dataset_key].
  set (db := DbWrapper.mk (Some h') (fmt ∘ fst <$> ws)).
  destruct (fetch_all_found db h' (fmt ∘ fst <$> ws) eq_refl (snd <$> ws) 0 [])
    as [Hfo Hfs].
  { apply Forall2_fmap, Forall_Forall2_diag, Forall_forall. intros w Hw.
    rewrite Forall_forall in Hplain.
    destruct (write_id_plain _ (Hplain w Hw)) as [Hwid Hrid].
    cbn [compose]. rewrite Hrid, <- Hwid. by apply Hin. }
  destruct (DBReader.fetch db _ 0 []) as [[o s] j].
  unfold outcome_of, state_of in Hfo, Hfs. cbn [fst snd] in *. subst o s.
  cbn [app]. rewrite list_fmap_compose, omap_Some_fmap.
  destruct (decide _) as [Hnone|_].
  { apply list_elem_of_fmap in Hnone as (x & Hx & _). discriminate. }
  cbn [fst elements]. by rewrite <- !list_fmap_compose.
Qed.

Lemma DBReader_read_after_writes_witness :
  let ws := [(PyInt 10, [x61; x00; x62]); (PyInt 11, [x63])] in
  let run := @write_all sample_engine ws sample_client in
  outcome_of run = Return tt /\
  elements (@DBReader.fetched_dataset sample_engine (state_of run)).1 =
    Return (until_nul ∘ snd <$> ws).
Proof.
  apply (@DBReader_read_after_writes sample_engine sample_client
           [(PyInt 10, [x61; x00; x62]); (PyInt 11, [x63])]).
  - vm_compute. reflexivity.
  - reflexivity.
  - apply (bool_decide_unpack _). vm_compute. reflexivity.
  - repeat constructor.
Defined.

(** ** The script of [wrapper_db.py] *)

Lemma plain_append (s1 s2 : str) :
  plain s1 = true -> plain s2 = true -> plain (s1 +:+ s2) = true.
Proof.
  induction s1 as [|c s1 IH]; [done|]. rewrite append_cons. cbn [plain].
  intros [Hc Hs]%andb_prop H2. by rewrite Hc, IH.
Qed.

Lemma c_char_p_value_c_char_p (b : bytes) :
  x00 ∉ b -> c_char_p_value (c_char_p b) = Some b.
Proof.
  intros Hb. unfold c_char_p_value, c_char_p. cbn.
  by rewrite until_nul_terminated, until_nul_id.
Qed.

Lemma c_char_p_value_plain (s : str) :
  plain s = true -> c_char_p_value (c_char_p (encode_utf8 s)) = Some (encode_utf8 s).
Proof. intros Hs. apply c_char_p_value_c_char_p. by apply encode_utf8_plain. Qed.

Section Script.
Context `{E : NodeEngine}.

(** A lookup of an id under which the nodes hold a payload allocates the
    document of that payload. *)
Lemma open_document_stored (h : DbHandle.t) (buf : c_char_p_t) (size : nat)
    (payload : bytes) :
  stored h (sized_bytes (SizedBuf.mk buf size)) = Some payload ->
  couchstore_open_document_from_nodes h buf size =
    (SUCCESS,
     Some (Doc.mk
             (SizedBuf.mk (c_char_p (sized_bytes (SizedBuf.mk buf size)))
                (length (sized_bytes (SizedBuf.mk buf size))))
             (SizedBuf.mk (c_char_p payload) (length payload)))).
Proof.
  unfold stored, couchstore_open_document_from_nodes.
  destruct (target h _) as [e|[idx store]]; [done|]. by intros ->.
Qed.

Lemma plain_key (i : nat) : plain ("key" +:+ pretty i) = true.
Proof. apply plain_append; [done|apply plain_pretty_nat]. Qed.

Lemma plain_value (i : nat) : plain ("value" +:+ pretty i) = true.
Proof. apply plain_append; [done|apply plain_pretty_nat]. Qed.

Lemma doc_id (i : nat) :
  sized_bytes (Doc.id (Main.doc i)) = encode_utf8 ("key" +:+ pretty i).
Proof.
  change (sized_bytes (Doc.id (Main.doc i))) with (write_id ("key" +:+ pretty i)).
  apply write_id_plain, plain_key.
Qed.

Lemma doc_payload (i : nat) :
  sized_bytes (Doc.data (Main.doc i)) = encode_utf8 ("value" +:+ pretty i).
Proof.
  change (sized_bytes (Doc.data (Main.doc i))) with (write_id ("value" +:+ pretty i)).
  apply write_id_plain, plain_value.
Qed.

Lemma doc_ids_NoDup (n : nat) :
  NoDup ((fun d => sized_bytes (Doc.id d)) <$> (Main.doc <$> seq 0 n)).
Proof.
  rewrite <- list_fmap_compose. apply NoDup_fmap_2_strong; [|apply NoDup_seq].
  intros i j _ _ Heq. cbn [compose] in Heq. rewrite !doc_id in Heq.
  apply encode_utf8_plain_inj in Heq; try apply plain_key.
  apply (inj (String.app "key")) in Heq. by apply (inj pretty).
Qed.

(** The last loop on a handle that holds every value under its key. *)
Lemma read_back_found (h : DbHandle.t) (indices : list nat) :
  (forall i, i ∈ indices ->
     stored h (encode_utf8 ("key" +:+ pretty i)) =
       Some (encode_utf8 ("value" +:+ pretty i))) ->
  forall rq_doc,
  Main.read_back h indices rq_doc =
    (Return tt,
     (fun i => [PBytes (Some (encode_utf8 ("key" +:+ pretty i))); PStr ": ";
                PBytes (Some (encode_utf8 ("value" +:+ pretty i)))]) <$> indices).
Proof.
  induction indices as [|i indices IH]; intros Hall rq_doc; [done|].
  cbn [Main.read_back]. cbn zeta. cbn [SizedBuf.buf SizedBuf.size].
  assert (sized_bytes
            (SizedBuf.mk (as_char_p (c_char_p_value (c_char_p (encode_utf8 ("key" +:+ pretty i)))))
               (len ("key" +:+ pretty i))) = encode_utf8 ("key" +:+ pretty i)) as Hid.
  { change (read_id ("key" +:+ pretty i) = encode_utf8 ("key" +:+ pretty i)).
    apply write_id_plain, plain_key. }
  rewrite (open_document_stored h _ _ (encode_utf8 ("value" +:+ pretty i)))
    by (rewrite Hid; apply Hall; left).
  cbn [Doc.data SizedBuf.buf]. rewrite IH by (intros j Hj; apply Hall; by right).
  by rewrite !c_char_p_value_plain by (apply plain_key || apply plain_value).
Qed.

End Script.

(** X7: whatever the hash functions of the ring and whatever the two nodes
    held when opened, the script of [wrapper_db.py] runs to its end without
    an exception, and its last loop prints, for each of the 32 keys
    [key0 .. key31] in order, the key and the value [value<i>] saved under
    it. *)
Theorem main_reads_back_what_it_saved `{E : NodeEngine} :
  Main.main =
    (Return tt,
     [[PStr "DB: "; PStr "RocksDB"];
      [PStr "Filename: "; PStr "test_simple_dir/rocks/node"];
      [PStr "add node: "; PInt 0]; [PStr "add node: "; PInt 1];
      [PStr "open multiple dbs done"]] ++
     ((fun i => [PStr "key: "; PBytes (Some (encode_utf8 ("key" +:+ pretty i)));
                 PStr "value: "; PBytes (Some (encode_utf8 ("value" +:+ pretty i)))])
        <$> seq 0 32) ++
     replicate 32 [PStr "save multiple documents done"] ++
     [[PStr "commit multiple dbs done"]] ++
     ((fun i => [PBytes (Some (encode_utf8 ("key" +:+ pretty i))); PStr ": ";
                 PBytes (Some (encode_utf8 ("value" +:+ pretty i)))])
        <$> seq 0 32) ++
     [[PStr "close multiple dbs done"]]).
Proof.
  set (h0 := DbHandle.mk
               ((fun i => Some (persisted "test_simple_dir/rocks/node" i)) <$> seq 0 2)
               (Some (foldl add_node (create_consistent_hashing 32) (seq 0 2))) 2).
  assert (ready (DbWrapper.mk (Some h0) []) = true) as Hready.
  { pose proof (db_init_ready 2 "rocksdb" "test_simple_dir/rocks/node"
                  (DbWrapper.mk None []) ltac:(lia)) as Hr.
    by rewrite db_init_handle in Hr. }
  assert (Main.read_back (save_all h0 (Main.doc <$> seq 0 32)) (seq 0 32) None =
          (Return tt,
           (fun i => [PBytes (Some (encode_utf8 ("key" +:+ pretty i))); PStr ": ";
                      PBytes (Some (encode_utf8 ("value" +:+ pretty i)))])
             <$> seq 0 32)) as Hback.
  { apply read_back_found. intros i Hi.
    rewrite <- doc_id, <- doc_payload.
    apply (save_all_stored _ h0 Hready (doc_ids_NoDup 32)).
    apply list_elem_of_fmap. by exists i. }
  assert (Main.opened =
          (h0, [[PStr "DB: "; PStr "RocksDB"];
                [PStr "Filename: "; PStr "test_simple_dir/rocks/node"];
                [PStr "add node: "; PInt 0]; [PStr "add node: "; PInt 1];
                [PStr "open multiple dbs done"]])) as Hopen by reflexivity.
  unfold Main.main. rewrite Hopen. unfold Main.batch. cbn zeta.
  rewrite Hback. unfold couchstore_close_multiple_dbs.
  reflexivity.
Qed.

(** ** A client straight out of [db_init] *)

Lemma commit_open_nodes (dbs : list (option (gmap bytes bytes))) (ch : option HashRing)
    (n : nat) :
  Forall is_Some dbs -> couchstore_commit_nodes (DbHandle.mk dbs ch n) = SUCCESS.
Proof.
  intros Hall. unfold couchstore_commit_nodes. cbn [DbHandle.dbs].
  destruct (decide _) as [Hin|]; [|done].
  rewrite Forall_forall in Hall. by destruct (Hall None Hin).
Qed.

(** X12: on a client built by [db_init(n)] with [n] in the range of a
    [c_int] ([0 <= n < 2^31]), whatever object it is called on and whatever
    the engine, the commit of every [db_write] succeeds; its put succeeds
    when [n > 0], and is rejected with EmptyRing when [n = 0], in which
    case the key is appended to [dataset_key] all the same. *)
Theorem db_write_on_new_client `{E : NodeEngine}
    (n : nat) (name path : str) (self0 : DbWrapper.t) (uri : pyval) (data : bytes) :
  (N.of_nat n < 2 ^ 31)%N ->
  let self := state_of (DbWrapper.db_init n name path self0) in
  let w := DbWrapper.db_write uri data self in
  outcome_of w = Return tt /\
  journal_of w =
    [EvSave (if decide (n = 0) then ERROR EmptyRing else SUCCESS)
       (write_id (fmt uri)) data;
     EvAppendKey (fmt uri); EvCommit SUCCESS] /\
  DbWrapper.dataset_key (state_of w) = DbWrapper.dataset_key self0 ++ [fmt uri].
Proof.
  intros _ self w.
  destruct (db_init_topology n name path self0)
    as (h & ring & Hrun & Hn & Hdbs & Hch & _ & Hlen & _).
  assert (self = DbWrapper.mk (Some h) (DbWrapper.dataset_key self0)) as Hself
    by (subst self; by rewrite Hrun).
  assert (Forall is_Some (DbHandle.dbs h)) as Hopen.
  { rewrite Hdbs. apply Forall_fmap, Forall_forall. by eexists. }
  subst w. rewrite (db_write_run self h) by by rewrite Hself.
  cbn zeta. set (doc := Doc.mk _ _).
  unfold outcome_of, journal_of, state_of. cbn [fst snd].
  rewrite Hself. cbn [DbWrapper.dataset_key]. split; [done|]. split; [|done].
  change (sized_bytes (Doc.id doc)) with (write_id (fmt uri)).
  destruct (decide (n = 0)) as [->|Hpos].
  - assert (target h (sized_bytes (Doc.id doc)) = inl EmptyRing) as Ht.
    { unfold target. rewrite Hch. rewrite route_empty; [done|].
      by destruct (positions ring). }
    rewrite (save_rejected_handle h doc EmptyRing Ht). cbn [fst snd].
    destruct h as [dbs ch nn]. by rewrite commit_open_nodes.
  - assert (ready self = true) as Hready
      by (subst self; apply db_init_ready; lia).
    destruct (target_ready self h (sized_bytes (Doc.id doc))) as (idx & store & Ht & _);
      [by rewrite Hself|done|].
    unfold couchstore_save_document_to_nodes. rewrite Ht. cbn [fst snd].
    rewrite commit_open_nodes; [done|].
    apply Forall_insert; [done|by eexists].
Qed.

Lemma db_write_on_new_client_witness :
  let self :=
    state_of (@DbWrapper.db_init sample_engine 2 "rocksdb" "node" (DbWrapper.mk None [])) in
  let w := @DbWrapper.db_write sample_engine (PyStr "k") [x61] self in
  outcome_of w = Return tt /\
  journal_of w =
    [EvSave (if decide (2 = 0) then ERROR EmptyRing else SUCCESS) (write_id "k") [x61];
     EvAppendKey "k"; EvCommit SUCCESS] /\
  DbWrapper.dataset_key (state_of w) = [] ++ ["k"].
Proof.
  apply (@db_write_on_new_client sample_engine 2 "rocksdb" "node"
           (DbWrapper.mk None []) (PyStr "k") [x61]).
  vm_compute. reflexivity.
Defined.

(** ** Methods and the singleton *)

Lemma on_object_singleton (p : DbWrapper.Process) (a : nat) {A}
    (m : Py DbWrapper.t A) :
  singleton p ->
  (forall obj, initialised (state_of (m obj)) <-> initialised obj) ->
  singleton (state_of (DbWrapper.on_object a m p)) /\
  DbWrapper.__instance (state_of (DbWrapper.on_object a m p)) =
    DbWrapper.__instance p.
Proof.
  intros Hp Hm. unfold DbWrapper.on_object.
  destruct (DbWrapper.objects p !! a) as [obj|] eqn:Hobj; [|done].
  specialize (Hm obj). destruct (m obj) as [[r obj'] j].
  unfold state_of in *. cbn [fst snd] in *. split; [|done].
  intros a'. cbn [DbWrapper.objects DbWrapper.__instance]. rewrite <- (Hp a').
  destruct (decide (a = a')) as [<-|Hne].
  - rewrite list_lookup_insert_eq by (by eapply lookup_lt_Some). rewrite Hobj.
    split; intros (o & [= <-] & Hinit); eexists; (split; [done|]); by apply Hm.
  - by rewrite list_lookup_insert_ne.
Qed.

Lemma db_write_initialised `{E : NodeEngine} (uri : pyval) (data : bytes)
    (obj : DbWrapper.t) :
  initialised (state_of (DbWrapper.db_write uri data obj)) <-> initialised obj.
Proof.
  unfold initialised. destruct (DbWrapper.handle obj) as [h|] eqn:Hh.
  - rewrite (db_write_run obj h) by done. cbn. split; by eexists.
  - rewrite db_write_uninitialised by done. cbn. by rewrite Hh.
Qed.

Lemma db_checkpoint_initialised `{E : NodeEngine} (uri : pyval) (data : str)
    (obj : DbWrapper.t) :
  initialised (state_of (DbWrapper.db_checkpoint uri data obj)) <-> initialised obj.
Proof.
  unfold initialised. rewrite db_checkpoint_loop.
  destruct (DbWrapper.handle obj) as [h|] eqn:Hh.
  - rewrite (for_each_save_all _ _ obj h) by done. cbn. split; by eexists.
  - destruct (seq 0 _) as [|i l]; cbn [for_each].
    + cbn. by rewrite Hh.
    + unfold bind. rewrite save_document_uninitialised by done. cbn. by rewrite Hh.
Qed.

Lemma db_close_initialised (obj : DbWrapper.t) :
  initialised (state_of (DbWrapper.db_close obj)) <-> initialised obj.
Proof.
  unfold initialised. destruct (DbWrapper.handle obj) as [h|] eqn:Hh.
  - rewrite (db_close_run obj h) by done. cbn. split; by eexists.
  - destruct obj as [hd keys]. cbn in Hh. subst hd. by cbn.
Qed.

(** X13: calling [db_write], [db_checkpoint] or [db_close] on any object of
    the class keeps the initialised objects to exactly the registered one,
    and leaves [DbWrapper.__instance] as it was: no method un-registers the
    client or brings a second one to life. *)
Theorem methods_keep_the_singleton `{E : NodeEngine}
    (p : DbWrapper.Process) (a : nat) (uri : pyval) (data : bytes) (text : str) :
  singleton p ->
  let after_write := state_of (DbWrapper.on_object a (DbWrapper.db_write uri data) p) in
  let after_checkpoint :=
    state_of (DbWrapper.on_object a (DbWrapper.db_checkpoint uri text) p) in
  let after_close := state_of (DbWrapper.on_object a DbWrapper.db_close p) in
  (singleton after_write /\
   DbWrapper.__instance after_write = DbWrapper.__instance p) /\
  (singleton after_checkpoint /\
   DbWrapper.__instance after_checkpoint = DbWrapper.__instance p) /\
  (singleton after_close /\
   DbWrapper.__instance after_close = DbWrapper.__instance p).
Proof.
  intros Hp. cbn zeta. split; [|split]; apply on_object_singleton; try done.
  - apply db_write_initialised.
  - apply db_checkpoint_initialised.
  - apply db_close_initialised.
Qed.

Lemma methods_keep_the_singleton_witness :
  let p := DbWrapper.mkProcess (Some 0) [sample_client] in
  let after_write :=
    state_of (DbWrapper.on_object 0 (@DbWrapper.db_write sample_engine (PyStr "k") [x61]) p) in
  let after_checkpoint :=
    state_of (DbWrapper.on_object 0 (@DbWrapper.db_checkpoint sample_engine (PyStr "k") "a") p) in
  let after_close := state_of (DbWrapper.on_object 0 DbWrapper.db_close p) in
  (singleton after_write /\
   DbWrapper.__instance after_write = DbWrapper.__instance p) /\
  (singleton after_checkpoint /\
   DbWrapper.__instance after_checkpoint = DbWrapper.__instance p) /\
  (singleton after_close /\
   DbWrapper.__instance after_close = DbWrapper.__instance p).
Proof.
  apply (@methods_keep_the_singleton sample_engine
           (DbWrapper.mkProcess (Some 0) [sample_client]) 0 (PyStr "k") [x61] "a").
  apply (@singleton_first sample_engine fresh_process).
  - intros a. split; [intros (obj & Hobj & _); discriminate|discriminate].
  - reflexivity.
Defined.

(** ** [str2bool] *)

Lemma lower_char_idem (c : ascii) :
  Utility.lower_char (Utility.lower_char c) = Utility.lower_char c.
Proof. destruct c as [[] [] [] [] [] [] [] []]; vm_compute; reflexivity. Qed.

Lemma lower_idem (s : str) : Utility.lower (Utility.lower s) = Utility.lower s.
Proof.
  induction s as [|c s IH]; cbn; [done|]. by rewrite lower_char_idem, IH.
Qed.

(** X14: [str2bool] gives a [bool] back as it is; on a string its answer
    depends on the lower-cased string only, so it is the same for a string
    and for its lower-cased form; and on every string that is none of the
    ten accepted spellings it raises [NameError] for the name [argparse],
    which the module never imports, never an [ArgumentTypeError]. *)
Theorem str2bool_case_and_errors (s : str) (b : bool) :
  Utility.str2bool (Utility.ABool b) = inr b /\
  Utility.str2bool (Utility.AStr (Utility.lower s)) =
    Utility.str2bool (Utility.AStr s) /\
  (Utility.lower s ∉ ["yes"; "true"; "t"; "y"; "1"; "no"; "false"; "f"; "n"; "0"] <->
   Utility.str2bool (Utility.AStr s) = inl (Utility.NameError "argparse")) /\
  (forall msg, Utility.str2bool (Utility.AStr s) <> inl (Utility.ArgumentTypeError msg)).
Proof.
  split; [done|]. split; [|split].
  - unfold Utility.str2bool. by rewrite lower_idem.
  - unfold Utility.str2bool.
    change ["yes"; "true"; "t"; "y"; "1"; "no"; "false"; "f"; "n"; "0"]
      with (["yes"; "true"; "t"; "y"; "1"] ++ ["no"; "false"; "f"; "n"; "0"]).
    rewrite elem_of_app. repeat case_bool_decide; split; try done; tauto.
  - intros msg. unfold Utility.str2bool. by repeat case_bool_decide.
Qed.

(** ** [PerfTrace] *)

Section Trace.
Context `{M : Mpi}.

Lemma PerfTrace_new_run (w : PerfTrace.World) :
  PerfTrace.new w =
    (Return (length (PerfTrace.objects w)),
     PerfTrace.mkWorld (Some (length (PerfTrace.objects w)))
       (PerfTrace.objects w ++
        [PerfTrace.mk
           ("./.trace-" +:+ pretty get_rank +:+ "-of-" +:+ pretty get_size +:+ ".pfw")
           None false])
       (PerfTrace.handlers w),
     []).
Proof.
  destruct w as [inst objs hs].
  unfold PerfTrace.new, PerfTrace.__init__, PerfTrace.set_object, bind,
    get_state, put_state, ret.
  cbn [PerfTrace.objects PerfTrace.__instance PerfTrace.handlers].
  by rewrite insert_app_r_alt, Nat.sub_diag by done.
Qed.

Lemma PerfTrace_get_instance_again (w : PerfTrace.World) (a : nat) :
  PerfTrace.__instance w = Some a ->
  PerfTrace.get_instance w = (Return (Some a), w, []).
Proof.
  intros Hinst. unfold PerfTrace.get_instance, bind, get_state, ret.
  rewrite Hinst. destruct (decide (Some a = None)); [done|]. by rewrite Hinst.
Qed.

End Trace.

(** X15: unlike [DbWrapper], [PerfTrace] does not guard its constructor.
    The call [PerfTrace()] never raises: it allocates a new object whose
    log file name carries the rank and the size, registers it in place of
    whatever was registered, and leaves the old objects and the handlers of
    the logger as they were; [get_instance] then returns the new object. *)
Theorem PerfTrace_constructor_replaces_instance `{M : Mpi} (w : PerfTrace.World) :
  let a := length (PerfTrace.objects w) in
  let w' := state_of (PerfTrace.new w) in
  outcome_of (PerfTrace.new w) = Return a /\
  PerfTrace.__instance w' = Some a /\
  PerfTrace.objects w' !! a =
    Some (PerfTrace.mk
            ("./.trace-" +:+ pretty get_rank +:+ "-of-" +:+ pretty get_size +:+ ".pfw")
            None false) /\
  (forall a' obj, PerfTrace.objects w !! a' = Some obj ->
     PerfTrace.objects w' !! a' = Some obj) /\
  PerfTrace.handlers w' = PerfTrace.handlers w /\
  PerfTrace.get_instance w' = (Return (Some a), w', []).
Proof.
  intros a w'. subst a w'. rewrite PerfTrace_new_run.
  unfold outcome_of, state_of. cbn [fst snd PerfTrace.objects PerfTrace.__instance
    PerfTrace.handlers].
  repeat split.
  - by apply list_lookup_middle.
  - intros a' obj Hobj. by apply lookup_app_l_Some.
Qed.

Lemma flush_log_first (w : PerfTrace.World) (a : nat) (obj : PerfTrace.t) (s : str) :
  PerfTrace.objects w !! a = Some obj ->
  PerfTrace.logger obj = false ->
  PerfTrace.flush_log a s w =
    match PerfTrace.log_file obj with
    | None =>
        (Raise (TypeError "expected str, bytes or os.PathLike object, not NoneType"),
         PerfTrace.mkWorld (PerfTrace.__instance w)
           (<[a := PerfTrace.mk (PerfTrace.logfile obj) None true]> (PerfTrace.objects w))
           (PerfTrace.handlers w),
         [])
    | Some file =>
        (Return tt,
         PerfTrace.mkWorld (PerfTrace.__instance w)
           (<[a := PerfTrace.mk (PerfTrace.logfile obj) (Some file) true]>
              (PerfTrace.objects w))
           ((fun hd => PerfTrace.mkHandler (PerfTrace.path hd)
                         (PerfTrace.written hd ++
                          "[" :: (if decide (s <> "") then [s] else [])))
              <$> (PerfTrace.handlers w ++ [PerfTrace.mkHandler file []])),
         [])
    end.
Proof.
  intros Hobj Hlog. destruct w as [inst objs hs]. cbn in Hobj.
  unfold PerfTrace.flush_log, PerfTrace.get_object, PerfTrace.set_object,
    PerfTrace.add_file_handler, PerfTrace.debug, bind, ret, raise.
  cbn [PerfTrace.objects PerfTrace.__instance PerfTrace.handlers].
  rewrite Hobj, Hlog. destruct (PerfTrace.log_file obj) as [file|]; [|done].
  cbn [PerfTrace.objects PerfTrace.__instance PerfTrace.handlers].
  destruct (decide (s <> "")).
  - cbn [PerfTrace.objects PerfTrace.__instance PerfTrace.handlers app].
    do 2 f_equal. f_equal. rewrite <- list_fmap_compose. apply list_fmap_ext.
    intros _ hd _. cbn. by rewrite <- app_assoc.
  - cbn [app]. reflexivity.
Qed.

Lemma flush_log_later (w : PerfTrace.World) (a : nat) (obj : PerfTrace.t) (s : str) :
  PerfTrace.objects w !! a = Some obj ->
  PerfTrace.logger obj = true ->
  PerfTrace.flush_log a s w =
    (Return tt,
     PerfTrace.mkWorld (PerfTrace.__instance w) (PerfTrace.objects w)
       ((fun hd => PerfTrace.mkHandler (PerfTrace.path hd)
                     (PerfTrace.written hd ++ (if decide (s <> "") then [s] else [])))
          <$> PerfTrace.handlers w),
     []).
Proof.
  intros Hobj Hlog. destruct w as [inst objs hs]. cbn in Hobj.
  unfold PerfTrace.flush_log, PerfTrace.get_object, PerfTrace.debug, bind, ret.
  cbn [PerfTrace.objects PerfTrace.__instance PerfTrace.handlers].
  rewrite Hobj, Hlog. destruct (decide (s <> "")); cbn [app]; [done|].
  do 2 f_equal. f_equal. rewrite <- (list_fmap_id hs) at 1.
  apply list_fmap_ext. intros _ [p l] _. cbn. by rewrite app_nil_r.
Qed.

Lemma flush_all_later (a : nat) (obj : PerfTrace.t) (ss : list str) :
  PerfTrace.logger obj = true ->
  forall w : PerfTrace.World,
  PerfTrace.objects w !! a = Some obj ->
  outcome_of (PerfTrace.flush_all a ss w) = Return tt /\
  state_of (PerfTrace.flush_all a ss w) =
    PerfTrace.mkWorld (PerfTrace.__instance w) (PerfTrace.objects w)
      ((fun hd => PerfTrace.mkHandler (PerfTrace.path hd)
                    (PerfTrace.written hd ++ filter (fun x => x <> "") ss))
         <$> PerfTrace.handlers w).
Proof.
  intros Hlog. induction ss as [|s ss IH]; intros w Hobj.
  - destruct w as [inst objs hs]. unfold outcome_of, state_of. cbn. split; [done|].
    f_equal. rewrite <- (list_fmap_id hs) at 1.
    apply list_fmap_ext. intros _ [p l] _. cbn. by rewrite app_nil_r.
  - unfold PerfTrace.flush_all. cbn [for_each].
    rewrite (bind_Return _ _ _ _ _ _ (flush_log_later w a obj s Hobj Hlog)).
    fold (PerfTrace.flush_all a ss). set (w1 := PerfTrace.mkWorld _ _ _).
    destruct (IH w1 Hobj) as [Ho Hs].
    unfold outcome_of, state_of in *. cbn [fst snd] in *. rewrite Ho, Hs.
    split; [done|].
    subst w1. cbn [PerfTrace.objects PerfTrace.__instance PerfTrace.handlers].
    f_equal. rewrite <- list_fmap_compose. apply list_fmap_ext.
    intros _ hd _. cbn [compose PerfTrace.path PerfTrace.written].
    rewrite <- app_assoc. do 2 f_equal.
    rewrite filter_cons. by destruct (decide (s <> "")).
Qed.

(** X16: [flush_log] on an object whose [log_file] was never set raises
    [TypeError] out of [FileHandler(None)], after [self.logger] has been
    assigned and before any handler is attached. Every later [flush_log] on
    that object therefore skips the set-up and returns normally without
    attaching a handler; when the logger had no handler, what it is given
    is written nowhere. *)
Theorem flush_log_before_log_file_is_set
    (w : PerfTrace.World) (a : nat) (obj : PerfTrace.t) (s s' : str) :
  PerfTrace.objects w !! a = Some obj ->
  PerfTrace.logger obj = false ->
  PerfTrace.log_file obj = None ->
  let r := PerfTrace.flush_log a s w in
  let r' := PerfTrace.flush_log a s' (state_of r) in
  outcome_of r =
    Raise (TypeError "expected str, bytes or os.PathLike object, not NoneType") /\
  PerfTrace.handlers (state_of r) = PerfTrace.handlers w /\
  outcome_of r' = Return tt /\
  PerfTrace.path <$> PerfTrace.handlers (state_of r') =
    PerfTrace.path <$> PerfTrace.handlers w /\
  (PerfTrace.handlers w = [] -> state_of r' = state_of r).
Proof.
  intros Hobj Hlog Hfile r r'. subst r r'.
  rewrite (flush_log_first w a obj s Hobj Hlog), Hfile.
  unfold outcome_of at 1, state_of. cbn [fst snd PerfTrace.handlers].
  split; [done|]. split; [done|].
  rewrite (flush_log_later _ a (PerfTrace.mk (PerfTrace.logfile obj) None true) s');
    [|cbn; apply list_lookup_insert_eq; by eapply lookup_lt_Some|done].
  unfold outcome_of. cbn [fst snd PerfTrace.handlers PerfTrace.objects PerfTrace.__instance].
  split; [done|]. split.
  - rewrite <- list_fmap_compose. by apply list_fmap_ext.
  - by intros ->.
Qed.

Lemma flush_log_before_log_file_is_set_witness :
  let w := PerfTrace.mkWorld (Some 0) [PerfTrace.mk "./.trace-0-of-1.pfw" None false] [] in
  let r := PerfTrace.flush_log 0 "{}" w in
  let r' := PerfTrace.flush_log 0 "{}" (state_of r) in
  outcome_of r =
    Raise (TypeError "expected str, bytes or os.PathLike object, not NoneType") /\
  PerfTrace.handlers (state_of r) = PerfTrace.handlers w /\
  outcome_of r' = Return tt /\
  PerfTrace.path <$> PerfTrace.handlers (state_of r') =
    PerfTrace.path <$> PerfTrace.handlers w /\
  (PerfTrace.handlers w = [] -> state_of r' = state_of r).
Proof.
  apply (flush_log_before_log_file_is_set
           (PerfTrace.mkWorld (Some 0) [PerfTrace.mk "./.trace-0-of-1.pfw" None false] [])
           0 (PerfTrace.mk "./.trace-0-of-1.pfw" None false) "{}" "{}");
    reflexivity.
Defined.

(** X17: on an object whose [log_file] is set and whose logger is not yet,
    a run of [flush_log] calls attaches one handler on that file and writes
    through it the line ["["] and then, in order, exactly the non-empty
    strings it was given; the handlers the logger already had receive the
    same lines after what they had written. No closing bracket is
    written. *)
Theorem flush_log_lines
    (w : PerfTrace.World) (a : nat) (obj : PerfTrace.t) (file s : str)
    (ss : list str) :
  PerfTrace.objects w !! a = Some obj ->
  PerfTrace.logger obj = false ->
  PerfTrace.log_file obj = Some file ->
  let lines := "[" :: filter (fun x => x <> "") (s :: ss) in
  let r := PerfTrace.flush_all a (s :: ss) w in
  outcome_of r = Return tt /\
  PerfTrace.handlers (state_of r) =
    ((fun hd => PerfTrace.mkHandler (PerfTrace.path hd) (PerfTrace.written hd ++ lines))
       <$> PerfTrace.handlers w) ++
    [PerfTrace.mkHandler file lines].
Proof.
  intros Hobj Hlog Hfile lines r. subst r.
  unfold PerfTrace.flush_all. cbn [for_each].
  erewrite bind_Return
    by (rewrite (flush_log_first w a obj s Hobj Hlog), Hfile; reflexivity).
  fold (PerfTrace.flush_all a ss). set (w1 := PerfTrace.mkWorld _ _ _).
  destruct (flush_all_later a (PerfTrace.mk (PerfTrace.logfile obj) (Some file) true)
              ss eq_refl w1) as [Ho Hs].
  { subst w1. cbn. apply list_lookup_insert_eq. by eapply lookup_lt_Some. }
  unfold outcome_of, state_of in *. cbn [fst snd] in *. rewrite Ho, Hs.
  split; [done|]. subst w1 lines.
  cbn [PerfTrace.handlers]. rewrite <- list_fmap_compose, fmap_app.
  rewrite filter_cons. f_equal.
  - apply list_fmap_ext. intros _ hd _. cbn [compose PerfTrace.path PerfTrace.written].
    rewrite <- app_assoc. do 2 f_equal. by destruct (decide (s <> "")).
  - cbn [fmap list_fmap PerfTrace.path PerfTrace.written app]. do 2 f_equal.
    by destruct (decide (s <> "")).
Qed.

Lemma flush_log_lines_witness :
  let w := PerfTrace.mkWorld (Some 0)
             [PerfTrace.mk "./.trace-0-of-1.pfw" (Some "out/./.trace-0-of-1.pfw") false] [] in
  let lines := "[" :: filter (fun x => x <> "") ["" ; "{}"; ""; "{1}"] in
  let r := PerfTrace.flush_all 0 ["" ; "{}"; ""; "{1}"] w in
  outcome_of r = Return tt /\
  PerfTrace.handlers (state_of r) =
    ((fun hd => PerfTrace.mkHandler (PerfTrace.path hd) (PerfTrace.written hd ++ lines))
       <$> PerfTrace.handlers w) ++
    [PerfTrace.mkHandler "out/./.trace-0-of-1.pfw" lines].
Proof.
  apply (flush_log_lines
           (PerfTrace.mkWorld (Some 0)
              [PerfTrace.mk "./.trace-0-of-1.pfw" (Some "out/./.trace-0-of-1.pfw") false] [])
           0 (PerfTrace.mk "./.trace-0-of-1.pfw" (Some "out/./.trace-0-of-1.pfw") false)
           "out/./.trace-0-of-1.pfw" "" ["{}"; ""; "{1}"]);
    reflexivity.
Defined.

(** ** Chunks of data that is not ASCII *)

Lemma encode_utf8_wide (s : str) (c : ascii) :
  c ∈ list_ascii_of_string s -> (128 <= N_of_ascii c)%N ->
  len s < length (encode_utf8 s).
Proof.
  unfold len. induction s as [|c' s IH]; cbn [list_ascii_of_string].
  - intros Hin. by apply elem_of_nil in Hin.
  - intros [Heq|Hin]%elem_of_cons Hc; cbn [encode_utf8 String.length];
      rewrite length_app.
    + subst c'. unfold encode_char. cbn zeta.
      assert ((N_of_ascii c <? 128)%N = false) as -> by by apply N.ltb_ge.
      pose proof (len_le_encode_utf8 s). unfold len in *. cbn. lia.
    + specialize (IH Hin Hc). pose proof (length_encode_char c'). lia.
Qed.

(** X18: the payload of every chunk [db_checkpoint] emits is the first [bs]
    octets of the UTF-8 encoding of its slice, since its recorded size is
    the number of characters; a slice that holds any non-ASCII character
    encodes to more than [bs] octets, so its chunk is stored without its
    last octets. *)
Theorem db_checkpoint_chunk_is_cut_to_bs_octets (data : str) (i : nat) (c : ascii) :
  i < len data / DbWrapper.bs ->
  let value := slice data (i * DbWrapper.bs) ((i + 1) * DbWrapper.bs) in
  let payload := sized_bytes (Doc.data (DbWrapper.chunk_doc data i)) in
  payload = take DbWrapper.bs (encode_utf8 value) /\
  length payload = DbWrapper.bs /\
  (c ∈ list_ascii_of_string value -> (128 <= N_of_ascii c)%N ->
   length payload < length (encode_utf8 value)).
Proof.
  intros Hi value payload.
  pose proof (chunk_doc_size data i Hi) as Hsz.
  change (SizedBuf.size (Doc.data (DbWrapper.chunk_doc data i))) with (len value) in Hsz.
  pose proof (len_le_encode_utf8 value) as Hle.
  assert (payload = take DbWrapper.bs (encode_utf8 value)) as Hp.
  { subst payload. unfold sized_bytes, DbWrapper.chunk_doc, c_char_p.
    cbn [Doc.data SizedBuf.buf SizedBuf.size]. fold value. rewrite Hsz.
    apply take_app_le. lia. }
  assert (length payload = DbWrapper.bs) as Hlen
    by (rewrite Hp, length_take; lia).
  repeat split; try done.
  intros Hin Hc. rewrite Hlen, <- Hsz. by eapply encode_utf8_wide.
Qed.

Lemma db_checkpoint_chunk_is_cut_to_bs_octets_witness :
  let data := String (ascii_of_N 233) one_chunk in
  let value := slice data (0 * DbWrapper.bs) ((0 + 1) * DbWrapper.bs) in
  let payload := sized_bytes (Doc.data (DbWrapper.chunk_doc data 0)) in
  payload = take DbWrapper.bs (encode_utf8 value) /\
  length payload = DbWrapper.bs /\
  (ascii_of_N 233 ∈ list_ascii_of_string value -> (128 <= N_of_ascii (ascii_of_N 233))%N ->
   length payload < length (encode_utf8 value)).
Proof.
  apply (db_checkpoint_chunk_is_cut_to_bs_octets
           (String (ascii_of_N 233) one_chunk) 0 (ascii_of_N 233)).
  apply Nat.ltb_lt. vm_compute. reflexivity.
Defined.

(** ** A closed client stays the client *)

(** X19: once the registered client has been closed, [get_instance] still
    returns that same object and changes nothing: it never builds a new
    client. The object it returns has every node closed. *)
Theorem get_instance_after_db_close `{E : NodeEngine}
    (p : DbWrapper.Process) (a : nat) (obj : DbWrapper.t) (h : DbHandle.t) :
  DbWrapper.__instance p = Some a ->
  DbWrapper.objects p !! a = Some obj ->
  DbWrapper.handle obj = Some h ->
  let p' := state_of (DbWrapper.on_object a DbWrapper.db_close p) in
  DbWrapper.get_instance p' = (Return (Some a), p', []) /\
  DbWrapper.objects p' !! a =
    Some (DbWrapper.mk
            (Some (DbHandle.mk ((fun _ => None) <$> DbHandle.dbs h)
                     (DbHandle.ch h) (DbHandle.node_num h)))
            (DbWrapper.dataset_key obj)).
Proof.
  intros Hinst Hobj Hh p'.
  assert (p' = DbWrapper.mkProcess (Some a)
                 (<[a := DbWrapper.mk
                           (Some (DbHandle.mk ((fun _ => None) <$> DbHandle.dbs h)
                                    (DbHandle.ch h) (DbHandle.node_num h)))
                           (DbWrapper.dataset_key obj)]> (DbWrapper.objects p)))
    as ->.
  { subst p'. unfold DbWrapper.on_object. rewrite Hobj, (db_close_run obj h) by done.
    unfold state_of. cbn [fst snd]. by rewrite Hinst. }
  split.
  - unfold DbWrapper.get_instance, bind, get_state, ret.
    cbn [DbWrapper.__instance]. by destruct (decide (Some a = None)).
  - cbn [DbWrapper.objects]. apply list_lookup_insert_eq. by eapply lookup_lt_Some.
Qed.

Lemma get_instance_after_db_close_witness :
  let p := DbWrapper.mkProcess (Some 0) [sample_client] in
  let h := default (DbHandle.mk [] None 0) (DbWrapper.handle sample_client) in
  let p' := state_of (DbWrapper.on_object 0 DbWrapper.db_close p) in
  @DbWrapper.get_instance sample_engine p' = (Return (Some 0), p', []) /\
  DbWrapper.objects p' !! 0 =
    Some (DbWrapper.mk
            (Some (DbHandle.mk ((fun _ => None) <$> DbHandle.dbs h)
                     (DbHandle.ch h) (DbHandle.node_num h)))
            (DbWrapper.dataset_key sample_client)).
Proof.
  apply (@get_instance_after_db_close sample_engine
           (DbWrapper.mkProcess (Some 0) [sample_client]) 0 sample_client
           (default (DbHandle.mk [] None 0) (DbWrapper.handle sample_client)));
    reflexivity.
Defined.
